(** * houseVentFanCtrl: Z-Wave whole house ventilation fan speed controller

    A shallow embedding of [houseVentFanCtrl.ino] (Z-Uno sketch) and the
    verification of its documented behaviour: the percentage to speed
    conversion, the relay table, the persisted fan setting, the
    checksum-guarded configuration parameters and the hysteresis-gated
    sensor reports.

    Machine integers are values of [Z] with the wrap-around of the C types
    written out ([u8], [u16], [u32]).  The sketch's global variables, the
    EEPROM, the output pins and the trace of externally visible effects are
    the fields of one [State] record that every function threads
    explicitly.  The debug output of the [DBG_*] macros is left out. *)

From Stdlib Require Import ZArith Lia List Bool.
From stdpp Require Import base list.
Import ListNotations.

Local Open Scope Z_scope.

(** ** Machine integers *)

Definition u8 (x : Z) : Z := x mod 256.
Definition u16 (x : Z) : Z := x mod 65536.
Definition u32 (x : Z) : Z := x mod 4294967296.

(** Arduino's [highByte(w)] is [(uint8_t) ((w) >> 8)] and [lowByte(w)] is
    [(uint8_t) ((w) & 0xff)]. *)
Definition highByte (w : Z) : Z := u8 (Z.shiftr w 8).
Definition lowByte (w : Z) : Z := u8 (Z.land w 255).

Definition is_u8 (x : Z) : Prop := 0 <= x < 256.
Definition is_u16 (x : Z) : Prop := 0 <= x < 65536.

(** ** Constants of the sketch *)

Definition HIGH : Z := 1.
Definition LOW : Z := 0.

Definition NUMBER_OF_RELAYS : nat := 6.
Definition EEPROM_ADDRESS : Z := 0.
Definition CHECKSUM_ADDRESS : Z := EEPROM_ADDRESS + 1.

Definition TEMP_HYSTERESIS_DEFAULT : Z := 10.
Definition HUM_HYSTERESIS_DEFAULT : Z := 10.
Definition READ_INTERVAL_DEFAULT_S : Z := 30.
Definition READ_INTERVAL_MIN : Z := 30.

Definition PARAMETER_START_EEPROM_ADDRESS : Z := 8192.  (* 0x2000 *)
Definition PARAMETER_FIRST_NUMBER : Z := 64.

(** [channelType_t] *)
Definition CH_FAN : Z := 1.
Definition CH_TEMP : Z := 2.
Definition CH_HUM : Z := 3.

(** [param_t] *)
Definition PARAM_TEMP_HYSTERESIS : nat := 0.
Definition PARAM_HUM_HYSTERESIS : nat := 1.
Definition PARAM_READ_INTERVAL : nat := 2.
Definition PARAM_MAX : nat := 3.

(** Pin numbers, where the six relays are connected. *)
Definition RELAY_PIN : list Z := [9; 10; 11; 12; 14; 15].

(** Relays are off when HIGH, row = fan speed, column = relay number. *)
Definition relayTable : list (list Z) :=
  [ [HIGH; HIGH; HIGH; HIGH; HIGH]    (* Off *)
  ; [LOW;  HIGH; HIGH; HIGH; HIGH]    (* Very low speed *)
  ; [HIGH; HIGH; HIGH; HIGH; LOW ]    (* Low speed *)
  ; [HIGH; LOW;  HIGH; HIGH; LOW ]    (* Mid speed *)
  ; [HIGH; HIGH; HIGH; LOW;  LOW ]    (* High speed *)
  ; [HIGH; HIGH; LOW;  LOW;  LOW ]    (* Full speed *)
  ].

Definition parametersDefault : list Z :=
  [TEMP_HYSTERESIS_DEFAULT; HUM_HYSTERESIS_DEFAULT; READ_INTERVAL_DEFAULT_S].

(** ** Externally visible effects and the program state *)

Inductive Event : Type :=
| EvPinMode (pin : Z)                   (* pinMode(pin, OUTPUT) *)
| EvDigitalWrite (pin : Z) (level : Z)  (* digitalWrite(pin, level) *)
| EvEepromWrite (addr : Z) (byte : Z)   (* a cell of the EEPROM is rewritten *)
| EvSendReport (channel : Z).           (* zunoSendReport(channel) *)

Record State : Type := mkState {
  eeprom : Z -> Z;                (* non-volatile bytes, by address *)
  pinLevel : Z -> option Z;       (* level driven on a pin, once written *)
  temperature : Z;                (* int16_t, in 10th of Celsius *)
  sentTemperature : Z;            (* int16_t *)
  humidity : Z;                   (* int16_t, in 10th of percent *)
  sentHumidity : Z;               (* int16_t *)
  fanSpeed : Z;                   (* uint8_t, in percent *)
  parameters : list Z;            (* uint16_t parameters[PARAM_MAX] *)
  pendingCfgParamSave : bool;
  lastMillis : Z;                 (* static uint32_t of loop() *)
  trace : list Event              (* effects so far, oldest first *)
}.

Definition set_eeprom (e : Z -> Z) (s : State) : State :=
  mkState e (pinLevel s) (temperature s) (sentTemperature s) (humidity s)
          (sentHumidity s) (fanSpeed s) (parameters s) (pendingCfgParamSave s)
          (lastMillis s) (trace s).

Definition set_pinLevel (p : Z -> option Z) (s : State) : State :=
  mkState (eeprom s) p (temperature s) (sentTemperature s) (humidity s)
          (sentHumidity s) (fanSpeed s) (parameters s) (pendingCfgParamSave s)
          (lastMillis s) (trace s).

Definition set_temperature (t : Z) (s : State) : State :=
  mkState (eeprom s) (pinLevel s) t (sentTemperature s) (humidity s)
          (sentHumidity s) (fanSpeed s) (parameters s) (pendingCfgParamSave s)
          (lastMillis s) (trace s).

Definition set_sentTemperature (t : Z) (s : State) : State :=
  mkState (eeprom s) (pinLevel s) (temperature s) t (humidity s)
          (sentHumidity s) (fanSpeed s) (parameters s) (pendingCfgParamSave s)
          (lastMillis s) (trace s).

Definition set_humidity (h : Z) (s : State) : State :=
  mkState (eeprom s) (pinLevel s) (temperature s) (sentTemperature s) h
          (sentHumidity s) (fanSpeed s) (parameters s) (pendingCfgParamSave s)
          (lastMillis s) (trace s).

Definition set_sentHumidity (h : Z) (s : State) : State :=
  mkState (eeprom s) (pinLevel s) (temperature s) (sentTemperature s)
          (humidity s) h (fanSpeed s) (parameters s) (pendingCfgParamSave s)
          (lastMillis s) (trace s).

Definition set_fanSpeed (v : Z) (s : State) : State :=
  mkState (eeprom s) (pinLevel s) (temperature s) (sentTemperature s)
          (humidity s) (sentHumidity s) v (parameters s)
          (pendingCfgParamSave s) (lastMillis s) (trace s).

Definition set_parameters (ps : list Z) (s : State) : State :=
  mkState (eeprom s) (pinLevel s) (temperature s) (sentTemperature s)
          (humidity s) (sentHumidity s) (fanSpeed s) ps
          (pendingCfgParamSave s) (lastMillis s) (trace s).

Definition set_pendingCfgParamSave (b : bool) (s : State) : State :=
  mkState (eeprom s) (pinLevel s) (temperature s) (sentTemperature s)
          (humidity s) (sentHumidity s) (fanSpeed s) (parameters s) b
          (lastMillis s) (trace s).

Definition set_lastMillis (m : Z) (s : State) : State :=
  mkState (eeprom s) (pinLevel s) (temperature s) (sentTemperature s)
          (humidity s) (sentHumidity s) (fanSpeed s) (parameters s)
          (pendingCfgParamSave s) m (trace s).

Definition emit (ev : Event) (s : State) : State :=
  mkState (eeprom s) (pinLevel s) (temperature s) (sentTemperature s)
          (humidity s) (sentHumidity s) (fanSpeed s) (parameters s)
          (pendingCfgParamSave s) (lastMillis s) (trace s ++ [ev]).

(** The events a run from [s] to [s'] added to the trace. *)
Definition emitted (s s' : State) : list Event :=
  drop (length (trace s)) (trace s').

(** Everything of the state but the EEPROM and the trace. *)
Definition ram (s : State) :=
  (pinLevel s, fanSpeed s, parameters s, pendingCfgParamSave s,
   (temperature s, sentTemperature s, humidity s, sentHumidity s, lastMillis s)).

(** The pins that a list of events writes with [digitalWrite]. *)
Definition written_pins (evs : list Event) : list Z :=
  flat_map (fun ev => match ev with EvDigitalWrite pin _ => [pin] | _ => [] end) evs.

(** The channels that a list of events reports with [zunoSendReport]. *)
Definition reported_channels (evs : list Event) : list Z :=
  flat_map (fun ev => match ev with EvSendReport ch => [ch] | _ => [] end) evs.

Definition is_eeprom_write (ev : Event) : Prop :=
  match ev with EvEepromWrite _ _ => True | _ => False end.

(** ** Collaborators: digital lines, EEPROM, host stack *)

Definition upd {A : Type} (f : Z -> A) (k : Z) (v : A) : Z -> A :=
  fun k' => if Z.eqb k' k then v else f k'.

Definition pinMode (pin : Z) (s : State) : State :=
  emit (EvPinMode pin) s.

Definition digitalWrite (pin level : Z) (s : State) : State :=
  emit (EvDigitalWrite pin level) (set_pinLevel (upd (pinLevel s) pin (Some level)) s).

(** [EEPROM.read(addr)] *)
Definition EEPROM_read (addr : Z) (s : State) : Z := eeprom s addr.

(** [EEPROM.update(addr, value)]: the cell is written only when its content
    differs from [value]. *)
Definition EEPROM_update (addr value : Z) (s : State) : State :=
  if Z.eqb (EEPROM_read addr s) value then s
  else emit (EvEepromWrite addr value) (set_eeprom (upd (eeprom s) addr value) s).

Definition zunoSendReport (channel : Z) (s : State) : State :=
  emit (EvSendReport channel) s.

(** [for (i = 0; i < n; i++) body(i)] *)
Definition for_loop (n : nat) (body : nat -> State -> State) (s : State) : State :=
  fold_left (fun st i => body i st) (seq 0 n) s.

(** ** Speed conversion and relays *)

(** Convert speed from percentage 0-99% to a value in range 0-5. *)
Definition convertSpeed (percentage : Z) : Z :=
  if percentage >? 80 then 5
  else if percentage >? 60 then 4
  else if percentage >? 40 then 3
  else if percentage >? 20 then 2
  else if percentage >? 0 then 1
  else 0.

(** Set relays according to relayTable depending on speedValue. *)
Definition setSpeedRelays (speedValue : Z) (s : State) : State :=
  if speedValue <=? 5 then
    for_loop (NUMBER_OF_RELAYS - 1)
      (fun i st => digitalWrite (RELAY_PIN !!! i)
                     ((relayTable !!! Z.to_nat speedValue) !!! i) st) s
  else s.

Definition getterFan (s : State) : Z := fanSpeed s.

(** Sets new relay state depending on new speed percentage value. *)
Definition setterFan (newValue : Z) (s : State) : State :=
  let s1 := set_fanSpeed newValue s in
  let s2 := setSpeedRelays (convertSpeed newValue) s1 in
  EEPROM_update EEPROM_ADDRESS newValue s2.

Definition getterTemperature (s : State) : Z := u16 (temperature s).
Definition getterHumidity (s : State) : Z := u16 (humidity s).

(** ** Configuration parameters *)

Section Firmware.

(** The order in which the host library lays the two bytes of a parameter
    out in the EEPROM; nothing below depends on it. *)
Variable cfgHighByteFirst : bool.

(** Modelled from the spec: [zunoSaveCFGParam] and [zunoLoadCFGParam] belong
    to the Z-Uno host library, which is not part of the sketch.  The
    parameter values are persisted as one block at a fixed high address, in
    declared order: parameter number [n] occupies the two bytes at
    [PARAMETER_START_EEPROM_ADDRESS + 2 * (n - PARAMETER_FIRST_NUMBER)],
    which is the layout [verifyChecksum] reads back. *)
Definition cfgParamAddress (param : Z) : Z :=
  PARAMETER_START_EEPROM_ADDRESS + 2 * (param - PARAMETER_FIRST_NUMBER).

Definition zunoSaveCFGParam (param value : Z) (s : State) : State :=
  let a := cfgParamAddress param in
  if cfgHighByteFirst
  then EEPROM_update (a + 1) (lowByte value) (EEPROM_update a (highByte value) s)
  else EEPROM_update (a + 1) (highByte value) (EEPROM_update a (lowByte value) s).

Definition zunoLoadCFGParam (param : Z) (s : State) : Z :=
  let a := cfgParamAddress param in
  if cfgHighByteFirst
  then u16 (EEPROM_read a s * 256 + EEPROM_read (a + 1) s)
  else u16 (EEPROM_read (a + 1) s * 256 + EEPROM_read a s).

Definition setDefaultParameters (s : State) : State :=
  set_parameters parametersDefault s.

Definition loadParameters (s : State) : State :=
  for_loop PARAM_MAX
    (fun i st =>
       set_parameters
         (<[i := zunoLoadCFGParam (PARAMETER_FIRST_NUMBER + Z.of_nat i) st]>
            (parameters st)) st) s.

(** The byte sum [saveParameters] accumulates in its [uint8_t checksum]. *)
Definition paramChecksum (ps : list Z) : Z :=
  fold_left (fun c i => u8 (u8 (c + highByte (ps !!! i)) + lowByte (ps !!! i)))
            (seq 0 PARAM_MAX) 0.

Definition saveParameters (s : State) : State :=
  let r :=
    fold_left
      (fun (acc : Z * State) i =>
         let checksum := fst acc in
         let st := snd acc in
         let checksum := u8 (checksum + highByte (parameters st !!! i)) in
         let checksum := u8 (checksum + lowByte (parameters st !!! i)) in
         (checksum,
          zunoSaveCFGParam (PARAMETER_FIRST_NUMBER + Z.of_nat i)
                           (parameters st !!! i) st))
      (seq 0 PARAM_MAX) (0, s) in
  EEPROM_update CHECKSUM_ADDRESS (fst r) (snd r).

(** The byte sum [verifyChecksum] accumulates over the stored block. *)
Definition storedBlockSum (s : State) : Z :=
  fold_left
    (fun c i => u8 (c + EEPROM_read (PARAMETER_START_EEPROM_ADDRESS + Z.of_nat i) s))
    (seq 0 (PARAM_MAX * 2)) 0.

(** Returns true if checksum is OK. *)
Definition verifyChecksum (s : State) : bool :=
  let checksum := storedBlockSum s in
  let storedChecksum := EEPROM_read CHECKSUM_ADDRESS s in
  checksum =? storedChecksum.

(** ** Boot *)

(** The state in which [setup] starts: the EEPROM keeps its content, the
    globals have their initialisers, no pin has been driven. *)
Definition power_on (e : Z -> Z) : State :=
  mkState e (fun _ => None) 0 0 0 0 0 [0; 0; 0] false 0 [].

Definition setup (s : State) : State :=
  let s1 :=
    for_loop NUMBER_OF_RELAYS
      (fun i st => digitalWrite (RELAY_PIN !!! i) HIGH (pinMode (RELAY_PIN !!! i) st)) s in
  let s2 := setterFan (EEPROM_read EEPROM_ADDRESS s1) s1 in
  (* dht22.begin() only prepares the sensor *)
  if verifyChecksum s2 then loadParameters s2
  else saveParameters (setDefaultParameters s2).

(** The state of [setup] when it reaches the checksum test: the relay pins
    are initialised and the stored fan speed has been replayed. *)
Definition setup_replay (s : State) : State :=
  let s1 :=
    for_loop NUMBER_OF_RELAYS
      (fun i st => digitalWrite (RELAY_PIN !!! i) HIGH (pinMode (RELAY_PIN !!! i) st)) s in
  setterFan (EEPROM_read EEPROM_ADDRESS s1) s1.

Definition boot (e : Z -> Z) : State := setup (power_on e).

(** A power cycle: only the EEPROM survives. *)
Definition reboot (s : State) : State := boot (eeprom s).

(** ** Main loop *)

(** The sketch is built for the Z-Uno, whose compiler gives [int] and
    [unsigned int] 16 bits; the arithmetic of [loop] is modelled at that
    width. *)

(** [currentMillis - lastMillis >= parameters[PARAM_READ_INTERVAL] * 1000]:
    the subtraction is the wrapping one of [uint32_t]; the product of the
    [uint16_t] parameter and the [int] constant is taken in [unsigned int]
    and wraps at 65536 before it is widened for the comparison. *)
Definition poll_due (currentMillis : Z) (s : State) : bool :=
  u32 (currentMillis - lastMillis s)
    >=? u16 ((parameters s !!! PARAM_READ_INTERVAL) * 1000).

(** A value brought into the range of a 16-bit [int] (two's complement). *)
Definition wrap_i16 (x : Z) : Z := (x + 32768) mod 65536 - 32768.

(** [abs(reading - sent) >= parameters[which]]: the difference of the two
    [int16_t] operands and the negation in [abs] are taken in [int] and
    wrap, and the comparison with the [uint16_t] threshold is unsigned. *)
Definition exceeds (reading sent threshold : Z) : bool :=
  u16 (wrap_i16 (Z.abs (wrap_i16 (reading - sent)))) >=? threshold.

(** One iteration of [loop], given what [millis()] and the two sensor reads
    return in it. *)
Definition loop (currentMillis readTemperature readHumidity : Z) (s : State) : State :=
  let s1 :=
    if poll_due currentMillis s then
      let s := set_lastMillis currentMillis s in
      let s := set_temperature readTemperature s in
      let s := set_humidity readHumidity s in
      let s :=
        if exceeds (temperature s) (sentTemperature s)
                   (parameters s !!! PARAM_TEMP_HYSTERESIS)
        then set_sentTemperature (temperature s) (zunoSendReport CH_TEMP s)
        else s in
      let s :=
        if exceeds (humidity s) (sentHumidity s)
                   (parameters s !!! PARAM_HUM_HYSTERESIS)
        then set_sentHumidity (humidity s) (zunoSendReport CH_HUM s)
        else s in
      (* verifyChecksum() is called for its debug output only *)
      s
    else s in
  if pendingCfgParamSave s1
  then set_pendingCfgParamSave false (saveParameters s1)
  else s1.

(** The state of [loop] when it reaches the test of [pendingCfgParamSave]:
    the sensor poll, if due, is done. *)
Definition loop_poll (currentMillis readTemperature readHumidity : Z) (s : State) : State :=
  if poll_due currentMillis s then
    let s := set_lastMillis currentMillis s in
    let s := set_temperature readTemperature s in
    let s := set_humidity readHumidity s in
    let s :=
      if exceeds (temperature s) (sentTemperature s)
                 (parameters s !!! PARAM_TEMP_HYSTERESIS)
      then set_sentTemperature (temperature s) (zunoSendReport CH_TEMP s)
      else s in
    let s :=
      if exceeds (humidity s) (sentHumidity s)
                 (parameters s !!! PARAM_HUM_HYSTERESIS)
      then set_sentHumidity (humidity s) (zunoSendReport CH_HUM s)
      else s in
    s
  else s.

(** ** Configuration change handler *)

Definition configParameterChanged (param value : Z) (s : State) : State :=
  let paramNumber := u8 (param - PARAMETER_FIRST_NUMBER) in
  if paramNumber >=? Z.of_nat PARAM_MAX then s
  else
    let value :=
      if (paramNumber =? Z.of_nat PARAM_READ_INTERVAL) && (value <? READ_INTERVAL_MIN)
      then READ_INTERVAL_MIN else value in
    set_pendingCfgParamSave true
      (set_parameters (<[Z.to_nat paramNumber := value]> (parameters s)) s).

(** The two bytes of a parameter value in the order they are stored. *)
Definition cfgFirstByte (value : Z) : Z :=
  if cfgHighByteFirst then highByte value else lowByte value.
Definition cfgSecondByte (value : Z) : Z :=
  if cfgHighByteFirst then lowByte value else highByte value.

(** The host stack stores the value it has just handed to
    [configParameterChanged] into the parameter's EEPROM cells once the
    handler has returned (see the comment at the end of the handler). *)
Definition hostStoreCfgParam (param value : Z) (s : State) : State :=
  zunoSaveCFGParam param value s.

(** ** Well-formed states, runs and the checksum invariant *)

Definition wf_eeprom (e : Z -> Z) : Prop := forall a, is_u8 (e a).

Definition wf_params (ps : list Z) : Prop :=
  length ps = PARAM_MAX /\ Forall is_u16 ps.

Definition wf_state (s : State) : Prop :=
  wf_eeprom (eeprom s) /\ wf_params (parameters s).

(** What the environment can make the firmware do after boot. *)
Inductive Step : State -> State -> Prop :=
| step_setterFan (p : Z) (s : State) :
    is_u8 p -> Step s (setterFan p s)
| step_configParameterChanged (q v : Z) (s : State) :
    is_u8 q -> is_u16 v -> Step s (configParameterChanged q v s)
| step_hostStoreCfgParam (q v : Z) (s : State) :
    is_u8 q -> is_u16 v -> Step s (hostStoreCfgParam q v s)
| step_loop (now t h : Z) (s : State) :
    Step s (loop now t h s)
| step_reboot (s : State) :
    Step s (reboot s).

Inductive Reachable : State -> Prop :=
| reach_boot (e : Z -> Z) : wf_eeprom e -> Reachable (boot e)
| reach_step (s s' : State) : Reachable s -> Step s s' -> Reachable s'.

(** The stored checksum byte is the byte sum of the in-memory parameters
    whenever no save is pending. *)
Definition checksum_inv (s : State) : Prop :=
  pendingCfgParamSave s = false ->
  EEPROM_read CHECKSUM_ADDRESS s = paramChecksum (parameters s).

(** The sum modulo 256 of the high byte and the low byte of every parameter
    value, in declared order (the checksum as the documentation words it). *)
Definition byteSum (ps : list Z) : Z :=
  fold_right Z.add 0 (flat_map (fun w => [highByte w; lowByte w]) ps) mod 256.

(** The five relay levels a speed value stands for in [relayTable]. *)
Definition relayRow (speedValue : Z) : list Z :=
  relayTable !!! Z.to_nat speedValue.

(** The levels currently driven on the first five relay pins. *)
Definition relayOutputs (s : State) : list (option Z) :=
  map (pinLevel s) (take (NUMBER_OF_RELAYS - 1) RELAY_PIN).



(** The EEPROM cells that a list of events rewrites, with the bytes written. *)
Definition eeprom_writes (evs : list Event) : list (Z * Z) :=
  flat_map (fun ev => match ev with EvEepromWrite a b => [(a, b)] | _ => [] end) evs.

(** Every event of the list is an EEPROM write at an address satisfying [P]. *)
Definition writes_within (P : Z -> Prop) (evs : list Event) : Prop :=
  Forall (fun ev => match ev with EvEepromWrite a _ => P a | _ => False end) evs.

(** The addresses [saveParameters] is entitled to: the checksum byte and the
    six bytes of the parameter block. *)
Definition param_store_address (a : Z) : Prop :=
  a = CHECKSUM_ADDRESS \/
  PARAMETER_START_EEPROM_ADDRESS <= a < PARAMETER_START_EEPROM_ADDRESS + 6.

(** An EEPROM in which the cells [a] and [b] have exchanged their bytes. *)
Definition swap_cells (e : Z -> Z) (a b : Z) : Z -> Z :=
  upd (upd e a (e b)) b (e a).

Definition is_u32 (x : Z) : Prop := 0 <= x < 4294967296.

(** No event of the list drives [pin] LOW (energises its relay). *)
Definition never_drives_low (pin : Z) (evs : list Event) : Prop :=
  Forall (fun ev => ev <> EvDigitalWrite pin LOW) evs.

Arguments u8 : simpl never.
Arguments u16 : simpl never.
Arguments u32 : simpl never.
Arguments highByte : simpl never.
Arguments lowByte : simpl never.

(** * Verification *)

(** ** Traces *)

Lemma emitted_app (s s' : State) (evs : list Event) :
  trace s' = trace s ++ evs -> emitted s s' = evs.
Proof.
  intros E. unfold emitted. rewrite E. apply drop_app_length.
Qed.

Lemma emitted_same (s s' : State) :
  trace s' = trace s -> emitted s s' = [].
Proof.
  intros E. apply emitted_app. rewrite E. symmetry. apply app_nil_r.
Qed.

(** ** Machine integers *)

Lemma u8_range (x : Z) : is_u8 (u8 x).
Proof. unfold is_u8, u8. apply Z.mod_pos_bound. lia. Qed.

Lemma u16_range (x : Z) : is_u16 (u16 x).
Proof. unfold is_u16, u16. apply Z.mod_pos_bound. lia. Qed.

Lemma u8_add_l (a b : Z) : u8 (u8 a + b) = u8 (a + b).
Proof. unfold u8. apply Zplus_mod_idemp_l. Qed.

Lemma highByte_div (w : Z) : highByte w = (w / 256) mod 256.
Proof. unfold highByte, u8. rewrite Z.shiftr_div_pow2 by lia. reflexivity. Qed.

Lemma lowByte_mod (w : Z) : lowByte w = w mod 256.
Proof.
  unfold lowByte, u8. change 255 with (Z.ones 8).
  rewrite Z.land_ones by lia. change (2 ^ 8) with 256.
  apply Z.mod_mod. lia.
Qed.

Lemma bytes_of_word (hi lo : Z) :
  is_u8 hi -> is_u8 lo ->
  highByte (u16 (hi * 256 + lo)) = hi /\ lowByte (u16 (hi * 256 + lo)) = lo.
Proof.
  unfold is_u8. intros Hhi Hlo.
  assert (u16 (hi * 256 + lo) = hi * 256 + lo) as ->.
  { unfold u16. apply Z.mod_small. lia. }
  rewrite highByte_div, lowByte_mod. split.
  - replace ((hi * 256 + lo) / 256) with hi.
    + apply Z.mod_small. lia.
    + apply Z.div_unique with lo; lia.
  - symmetry. apply Z.mod_unique with hi; lia.
Qed.

Lemma word_of_bytes (w : Z) :
  is_u16 w -> u16 (highByte w * 256 + lowByte w) = w.
Proof.
  unfold is_u16. intros Hw. rewrite highByte_div, lowByte_mod.
  assert (w / 256 < 256) by (apply Z.div_lt_upper_bound; lia).
  assert (0 <= w / 256) by (apply Z.div_pos; lia).
  rewrite (Z.mod_small (w / 256)) by lia.
  rewrite Z.mul_comm, <- Z.div_mod by lia.
  unfold u16. apply Z.mod_small. lia.
Qed.

(** ** convertSpeed *)

Lemma convertSpeed_cases (p : Z) :
  (p <= 0 /\ convertSpeed p = 0) \/
  (1 <= p <= 20 /\ convertSpeed p = 1) \/
  (21 <= p <= 40 /\ convertSpeed p = 2) \/
  (41 <= p <= 60 /\ convertSpeed p = 3) \/
  (61 <= p <= 80 /\ convertSpeed p = 4) \/
  (81 <= p /\ convertSpeed p = 5).
Proof.
  unfold convertSpeed.
  destruct (Z.gtb_spec p 80); [lia|].
  destruct (Z.gtb_spec p 60); [lia|].
  destruct (Z.gtb_spec p 40); [lia|].
  destruct (Z.gtb_spec p 20); [lia|].
  destruct (Z.gtb_spec p 0); lia.
Qed.

Lemma convertSpeed_range (p : Z) : 0 <= convertSpeed p <= 5.
Proof. pose proof (convertSpeed_cases p). lia. Qed.

(** C1: on the percentages 0..99 [convertSpeed] is the documented step
    function: 0 gives Off (0), 1..20 VeryLow (1), 21..40 Low (2), 41..60
    Mid (3), 61..80 High (4) and 81..99 Full (5); the boundary values 20 and
    21 give 1 and 2. *)
Theorem convertSpeed_table (p : Z) :
  0 <= p <= 99 ->
  (p = 0 -> convertSpeed p = 0) /\
  (1 <= p <= 20 -> convertSpeed p = 1) /\
  (21 <= p <= 40 -> convertSpeed p = 2) /\
  (41 <= p <= 60 -> convertSpeed p = 3) /\
  (61 <= p <= 80 -> convertSpeed p = 4) /\
  (81 <= p <= 99 -> convertSpeed p = 5) /\
  convertSpeed 20 = 1 /\ convertSpeed 21 = 2.
Proof.
  intros _. pose proof (convertSpeed_cases p) as H.
  repeat split; try reflexivity; intros; lia.
Qed.

(** ** setSpeedRelays *)

Lemma setSpeedRelays_in_range (v : Z) (s : State) :
  v <= 5 ->
  setSpeedRelays v s =
    digitalWrite 14 (relayRow v !!! 4%nat)
      (digitalWrite 12 (relayRow v !!! 3%nat)
         (digitalWrite 11 (relayRow v !!! 2%nat)
            (digitalWrite 10 (relayRow v !!! 1%nat)
               (digitalWrite 9 (relayRow v !!! 0%nat) s)))).
Proof.
  intros Hv. unfold setSpeedRelays.
  destruct (Z.leb_spec v 5); [reflexivity | lia].
Qed.

Lemma setSpeedRelays_out_of_range (v : Z) (s : State) :
  5 < v -> setSpeedRelays v s = s.
Proof.
  intros Hv. unfold setSpeedRelays.
  destruct (Z.leb_spec v 5); [lia | reflexivity].
Qed.

Lemma setSpeedRelays_trace (v : Z) (s : State) :
  v <= 5 ->
  trace (setSpeedRelays v s) =
    trace s ++ [EvDigitalWrite 9 (relayRow v !!! 0%nat);
                EvDigitalWrite 10 (relayRow v !!! 1%nat);
                EvDigitalWrite 11 (relayRow v !!! 2%nat);
                EvDigitalWrite 12 (relayRow v !!! 3%nat);
                EvDigitalWrite 14 (relayRow v !!! 4%nat)].
Proof.
  intros Hv. rewrite setSpeedRelays_in_range by exact Hv.
  cbn [digitalWrite emit set_pinLevel trace].
  rewrite <- !app_assoc. reflexivity.
Qed.

Lemma setSpeedRelays_pinLevel (v : Z) (s : State) (pin : Z) :
  v <= 5 ->
  pinLevel (setSpeedRelays v s) pin =
    if pin =? 14 then Some (relayRow v !!! 4%nat)
    else if pin =? 12 then Some (relayRow v !!! 3%nat)
    else if pin =? 11 then Some (relayRow v !!! 2%nat)
    else if pin =? 10 then Some (relayRow v !!! 1%nat)
    else if pin =? 9 then Some (relayRow v !!! 0%nat)
    else pinLevel s pin.
Proof.
  intros Hv. rewrite setSpeedRelays_in_range by exact Hv. reflexivity.
Qed.

Lemma setSpeedRelays_outputs (v : Z) (s : State) :
  0 <= v <= 5 ->
  relayOutputs (setSpeedRelays v s) = map Some (relayRow v).
Proof.
  intros Hv. unfold relayOutputs. cbn [NUMBER_OF_RELAYS RELAY_PIN Nat.sub take map].
  rewrite !setSpeedRelays_pinLevel by lia.
  assert (v = 0 \/ v = 1 \/ v = 2 \/ v = 3 \/ v = 4 \/ v = 5) as Hc by lia.
  destruct Hc as [->|[->|[->|[->|[->| ->]]]]]; reflexivity.
Qed.

(** C7: the write footprint of [setSpeedRelays].  For a speed value of at
    most 5 the function performs exactly five digital writes, one on each of
    the first five relay pins in order, with the levels of the table row;
    for a larger value it does nothing at all.  In both cases the sixth
    relay pin is not written and keeps its level. *)
Theorem setSpeedRelays_footprint (speedValue : Z) (s : State) :
  0 <= speedValue < 256 ->
  (speedValue <= 5 ->
     emitted s (setSpeedRelays speedValue s) =
       map (fun i => EvDigitalWrite (RELAY_PIN !!! i) (relayRow speedValue !!! i))
           (seq 0 5)
     /\ written_pins (emitted s (setSpeedRelays speedValue s)) = take 5 RELAY_PIN) /\
  (5 < speedValue ->
     setSpeedRelays speedValue s = s
     /\ emitted s (setSpeedRelays speedValue s) = []) /\
  ((RELAY_PIN !!! 5%nat) ∉ written_pins (emitted s (setSpeedRelays speedValue s))) /\
  pinLevel (setSpeedRelays speedValue s) (RELAY_PIN !!! 5%nat) =
    pinLevel s (RELAY_PIN !!! 5%nat).
Proof.
  intros Hu8.
  assert (speedValue <= 5 ->
          emitted s (setSpeedRelays speedValue s) =
            map (fun i => EvDigitalWrite (RELAY_PIN !!! i) (relayRow speedValue !!! i))
                (seq 0 5)) as Hin.
  { intros Hv. apply emitted_app. rewrite setSpeedRelays_trace by exact Hv.
    reflexivity. }
  assert (5 < speedValue -> emitted s (setSpeedRelays speedValue s) = []) as Hout.
  { intros Hv. apply emitted_same.
    rewrite setSpeedRelays_out_of_range by exact Hv. reflexivity. }
  split; [|split; [|split]].
  - intros Hv. split; [exact (Hin Hv)|]. rewrite (Hin Hv). reflexivity.
  - intros Hv. split; [apply setSpeedRelays_out_of_range; exact Hv | exact (Hout Hv)].
  - destruct (Z_le_gt_dec speedValue 5) as [Hv|Hv].
    + rewrite (Hin Hv). cbn. intros Hm.
      repeat (apply elem_of_cons in Hm; destruct Hm as [Hm|Hm]; [discriminate Hm|]).
      inversion Hm.
    + rewrite Hout by lia. cbn. apply not_elem_of_nil.
  - destruct (Z_le_gt_dec speedValue 5) as [Hv|Hv].
    + rewrite setSpeedRelays_pinLevel by exact Hv. reflexivity.
    + rewrite setSpeedRelays_out_of_range by lia. reflexivity.
Qed.

(** C8: [setSpeedRelays 3] (Mid) writes the row
    [inactive, active, inactive, inactive, active] of the table: relay
    channels 2 and 5 (pins 10 and 14) are driven LOW, channels 1, 3 and 4
    (pins 9, 11 and 12) are driven HIGH, and nothing else is written. *)
Theorem setSpeedRelays_mid (s : State) :
  relayTable !!! 3%nat = [HIGH; LOW; HIGH; HIGH; LOW] /\
  emitted s (setSpeedRelays 3 s) =
    [EvDigitalWrite 9 HIGH; EvDigitalWrite 10 LOW; EvDigitalWrite 11 HIGH;
     EvDigitalWrite 12 HIGH; EvDigitalWrite 14 LOW] /\
  relayOutputs (setSpeedRelays 3 s) = [Some HIGH; Some LOW; Some HIGH; Some HIGH; Some LOW] /\
  (forall i, (i < 5)%nat ->
     pinLevel (setSpeedRelays 3 s) (RELAY_PIN !!! i) = Some LOW <-> i = 1%nat \/ i = 4%nat).
Proof.
  split; [reflexivity|]. split; [|split].
  - apply emitted_app. rewrite setSpeedRelays_trace by lia. reflexivity.
  - reflexivity.
  - intros i Hi.
    destruct i as [|[|[|[|[|i]]]]]; cbn; try lia;
      (split; [intros H; first [discriminate H | lia] | intros [H|H]; first [discriminate H | reflexivity]]).
Qed.

(** ** EEPROM and host library *)

Lemma ram_fields (s s' : State) :
  ram s' = ram s ->
  pinLevel s' = pinLevel s /\ fanSpeed s' = fanSpeed s /\
  parameters s' = parameters s /\
  pendingCfgParamSave s' = pendingCfgParamSave s /\
  temperature s' = temperature s /\ sentTemperature s' = sentTemperature s /\
  humidity s' = humidity s /\ sentHumidity s' = sentHumidity s /\
  lastMillis s' = lastMillis s.
Proof.
  unfold ram. intros H. injection H as -> -> -> -> -> -> -> -> ->.
  repeat split.
Qed.

Lemma EEPROM_update_ram (a v : Z) (s : State) :
  ram (EEPROM_update a v s) = ram s.
Proof.
  unfold EEPROM_update. destruct (EEPROM_read a s =? v); reflexivity.
Qed.

Lemma EEPROM_update_eeprom (a v : Z) (s : State) (k : Z) :
  eeprom (EEPROM_update a v s) k = if k =? a then v else eeprom s k.
Proof.
  unfold EEPROM_update, EEPROM_read.
  destruct (Z.eqb_spec (eeprom s a) v) as [E|E].
  - destruct (Z.eqb_spec k a) as [->|N]; [exact E | reflexivity].
  - reflexivity.
Qed.

Lemma zunoSaveCFGParam_ram (q v : Z) (s : State) :
  ram (zunoSaveCFGParam q v s) = ram s.
Proof.
  unfold zunoSaveCFGParam.
  destruct cfgHighByteFirst; rewrite !EEPROM_update_ram; reflexivity.
Qed.

Lemma zunoSaveCFGParam_eeprom (q v : Z) (s : State) (k : Z) :
  eeprom (zunoSaveCFGParam q v s) k =
    if k =? cfgParamAddress q + 1 then cfgSecondByte v
    else if k =? cfgParamAddress q then cfgFirstByte v
    else eeprom s k.
Proof.
  unfold zunoSaveCFGParam, cfgFirstByte, cfgSecondByte.
  destruct cfgHighByteFirst; rewrite !EEPROM_update_eeprom; reflexivity.
Qed.

Lemma zunoLoadCFGParam_bytes (q : Z) (s : State) :
  wf_eeprom (eeprom s) ->
  cfgFirstByte (zunoLoadCFGParam q s) = EEPROM_read (cfgParamAddress q) s /\
  cfgSecondByte (zunoLoadCFGParam q s) = EEPROM_read (cfgParamAddress q + 1) s.
Proof.
  intros Hwf. unfold cfgFirstByte, cfgSecondByte, zunoLoadCFGParam, EEPROM_read.
  pose proof (Hwf (cfgParamAddress q)) as H0.
  pose proof (Hwf (cfgParamAddress q + 1)) as H1.
  destruct cfgHighByteFirst.
  - destruct (bytes_of_word _ _ H0 H1). split; assumption.
  - destruct (bytes_of_word _ _ H1 H0). split; assumption.
Qed.

(** ** saveParameters, loadParameters, verifyChecksum *)

Lemma saveParameters_steps (s : State) :
  saveParameters s =
    EEPROM_update CHECKSUM_ADDRESS (paramChecksum (parameters s))
      (zunoSaveCFGParam 66 (parameters s !!! 2%nat)
         (zunoSaveCFGParam 65 (parameters s !!! 1%nat)
            (zunoSaveCFGParam 64 (parameters s !!! 0%nat) s))).
Proof.
  unfold saveParameters, paramChecksum.
  cbn [fold_left seq PARAM_MAX fst snd].
  pose proof (ram_fields _ _ (zunoSaveCFGParam_ram 64 (parameters s !!! 0%nat) s))
    as (_ & _ & E1 & _).
  change (PARAMETER_FIRST_NUMBER + Z.of_nat 0) with 64.
  change (PARAMETER_FIRST_NUMBER + Z.of_nat 1) with 65.
  change (PARAMETER_FIRST_NUMBER + Z.of_nat 2) with 66.
  rewrite E1.
  pose proof (ram_fields _ _ (zunoSaveCFGParam_ram 65 (parameters s !!! 1%nat)
                (zunoSaveCFGParam 64 (parameters s !!! 0%nat) s)))
    as (_ & _ & E2 & _).
  rewrite E2, E1. reflexivity.
Qed.

Lemma saveParameters_ram (s : State) : ram (saveParameters s) = ram s.
Proof.
  rewrite saveParameters_steps.
  rewrite EEPROM_update_ram, !zunoSaveCFGParam_ram. reflexivity.
Qed.

Lemma saveParameters_eeprom (s : State) (k : Z) :
  eeprom (saveParameters s) k =
    if k =? 1 then paramChecksum (parameters s)
    else if k =? 8197 then cfgSecondByte (parameters s !!! 2%nat)
    else if k =? 8196 then cfgFirstByte (parameters s !!! 2%nat)
    else if k =? 8195 then cfgSecondByte (parameters s !!! 1%nat)
    else if k =? 8194 then cfgFirstByte (parameters s !!! 1%nat)
    else if k =? 8193 then cfgSecondByte (parameters s !!! 0%nat)
    else if k =? 8192 then cfgFirstByte (parameters s !!! 0%nat)
    else eeprom s k.
Proof.
  rewrite saveParameters_steps.
  rewrite EEPROM_update_eeprom, !zunoSaveCFGParam_eeprom. reflexivity.
Qed.

Lemma cfg_bytes_sum (w : Z) (c : Z) :
  u8 (u8 (c + cfgFirstByte w) + cfgSecondByte w) =
  u8 (u8 (c + highByte w) + lowByte w).
Proof.
  unfold cfgFirstByte, cfgSecondByte. destruct cfgHighByteFirst; [reflexivity|].
  rewrite !u8_add_l. f_equal. lia.
Qed.

Lemma storedBlockSum_unfold (s : State) :
  storedBlockSum s =
    u8 (u8 (u8 (u8 (u8 (u8 (0 + eeprom s 8192) + eeprom s 8193)
                      + eeprom s 8194) + eeprom s 8195)
              + eeprom s 8196) + eeprom s 8197).
Proof. reflexivity. Qed.

Lemma paramChecksum_unfold (ps : list Z) :
  paramChecksum ps =
    u8 (u8 (u8 (u8 (u8 (u8 (0 + highByte (ps !!! 0%nat)) + lowByte (ps !!! 0%nat))
                      + highByte (ps !!! 1%nat)) + lowByte (ps !!! 1%nat))
              + highByte (ps !!! 2%nat)) + lowByte (ps !!! 2%nat)).
Proof. reflexivity. Qed.

Lemma storedBlockSum_saveParameters (s : State) :
  storedBlockSum (saveParameters s) = paramChecksum (parameters s).
Proof.
  rewrite storedBlockSum_unfold, paramChecksum_unfold.
  rewrite !saveParameters_eeprom. cbn [Z.eqb Pos.eqb].
  rewrite !cfg_bytes_sum. reflexivity.
Qed.

Lemma verifyChecksum_saveParameters (s : State) :
  verifyChecksum (saveParameters s) = true.
Proof.
  unfold verifyChecksum. rewrite storedBlockSum_saveParameters.
  unfold EEPROM_read. rewrite saveParameters_eeprom.
  change (CHECKSUM_ADDRESS =? 1) with true. cbn iota.
  apply Z.eqb_refl.
Qed.

Lemma paramChecksum_sum (ps : list Z) :
  paramChecksum ps =
    (highByte (ps !!! 0%nat) + lowByte (ps !!! 0%nat) +
     highByte (ps !!! 1%nat) + lowByte (ps !!! 1%nat) +
     highByte (ps !!! 2%nat) + lowByte (ps !!! 2%nat)) mod 256.
Proof.
  rewrite paramChecksum_unfold.
  repeat (rewrite u8_add_l; rewrite <- ?Z.add_assoc).
  unfold u8. f_equal.
Qed.

Lemma verifyChecksum_ext (s s' : State) :
  (forall k, eeprom s' k = eeprom s k) ->
  verifyChecksum s' = verifyChecksum s.
Proof.
  intros E. unfold verifyChecksum, EEPROM_read.
  rewrite !storedBlockSum_unfold, !E. reflexivity.
Qed.

Lemma loadParameters_parameters (s : State) :
  length (parameters s) = PARAM_MAX ->
  parameters (loadParameters s) =
    [zunoLoadCFGParam 64 s; zunoLoadCFGParam 65 s; zunoLoadCFGParam 66 s].
Proof.
  destruct s as [e pl t st h sh fs ps pend lm tr]. cbn [parameters].
  destruct ps as [|p0 [|p1 [|p2 [|p3 ps]]]]; intros Hl; try discriminate Hl.
  reflexivity.
Qed.

Lemma loadParameters_frame (s : State) :
  eeprom (loadParameters s) = eeprom s /\
  pinLevel (loadParameters s) = pinLevel s /\
  fanSpeed (loadParameters s) = fanSpeed s /\
  pendingCfgParamSave (loadParameters s) = pendingCfgParamSave s /\
  trace (loadParameters s) = trace s.
Proof. repeat split. Qed.

Lemma zunoLoadCFGParam_ext (q : Z) (s s' : State) :
  (forall k, eeprom s' k = eeprom s k) ->
  zunoLoadCFGParam q s' = zunoLoadCFGParam q s.
Proof.
  intros E. unfold zunoLoadCFGParam, EEPROM_read. rewrite !E. reflexivity.
Qed.

Lemma zunoLoadCFGParam_word (q : Z) (s : State) (w : Z) :
  is_u16 w ->
  EEPROM_read (cfgParamAddress q) s = cfgFirstByte w ->
  EEPROM_read (cfgParamAddress q + 1) s = cfgSecondByte w ->
  zunoLoadCFGParam q s = w.
Proof.
  intros Hw E0 E1. unfold zunoLoadCFGParam. rewrite E0, E1.
  unfold cfgFirstByte, cfgSecondByte.
  destruct cfgHighByteFirst; apply word_of_bytes; exact Hw.
Qed.

Lemma wf_params_lookup (ps : list Z) (i : nat) :
  wf_params ps -> is_u16 (ps !!! i).
Proof.
  intros [Hl Hf].
  destruct (ps !! i) as [w|] eqn:E.
  - rewrite (list_lookup_total_correct _ _ _ E).
    rewrite Forall_lookup in Hf. exact (Hf _ _ E).
  - rewrite list_lookup_total_alt, E. cbn. unfold is_u16. lia.
Qed.

Lemma wf_params_three (ps : list Z) :
  wf_params ps -> ps = [ps !!! 0%nat; ps !!! 1%nat; ps !!! 2%nat].
Proof.
  intros [Hl _].
  destruct ps as [|p0 [|p1 [|p2 [|p3 ps]]]]; try discriminate Hl. reflexivity.
Qed.

Lemma loadParameters_saveParameters (s : State) :
  wf_params (parameters s) ->
  parameters (loadParameters (saveParameters s)) = parameters s.
Proof.
  intros Hwf.
  pose proof (ram_fields _ _ (saveParameters_ram s)) as (_ & _ & Ep & _).
  rewrite loadParameters_parameters by (rewrite Ep; apply Hwf).
  etransitivity; [|symmetry; apply (wf_params_three _ Hwf)].
  f_equal; [|f_equal; [|f_equal]];
    apply zunoLoadCFGParam_word;
    try (apply wf_params_lookup; exact Hwf);
    unfold EEPROM_read; rewrite saveParameters_eeprom; reflexivity.
Qed.

(** ** setterFan and boot *)

Lemma setSpeedRelays_frame (v : Z) (s : State) :
  eeprom (setSpeedRelays v s) = eeprom s /\
  fanSpeed (setSpeedRelays v s) = fanSpeed s /\
  parameters (setSpeedRelays v s) = parameters s /\
  pendingCfgParamSave (setSpeedRelays v s) = pendingCfgParamSave s.
Proof.
  unfold setSpeedRelays. destruct (v <=? 5); repeat split.
Qed.

Lemma setterFan_eeprom (p : Z) (s : State) (k : Z) :
  eeprom (setterFan p s) k = if k =? EEPROM_ADDRESS then p else eeprom s k.
Proof.
  unfold setterFan. rewrite EEPROM_update_eeprom.
  destruct (setSpeedRelays_frame (convertSpeed p) (set_fanSpeed p s)) as (-> & _).
  reflexivity.
Qed.

Lemma setterFan_frame (p : Z) (s : State) :
  fanSpeed (setterFan p s) = p /\
  parameters (setterFan p s) = parameters s /\
  pendingCfgParamSave (setterFan p s) = pendingCfgParamSave s.
Proof.
  unfold setterFan.
  pose proof (ram_fields _ _ (EEPROM_update_ram EEPROM_ADDRESS p
    (setSpeedRelays (convertSpeed p) (set_fanSpeed p s)))) as (_ & -> & -> & -> & _).
  destruct (setSpeedRelays_frame (convertSpeed p) (set_fanSpeed p s))
    as (_ & -> & -> & ->).
  repeat split.
Qed.

Lemma relayOutputs_ext (s s' : State) :
  pinLevel s' = pinLevel s -> relayOutputs s' = relayOutputs s.
Proof. unfold relayOutputs. intros ->. reflexivity. Qed.

Lemma setterFan_outputs (p : Z) (s : State) :
  relayOutputs (setterFan p s) = map Some (relayRow (convertSpeed p)).
Proof.
  unfold setterFan.
  rewrite (relayOutputs_ext (setSpeedRelays (convertSpeed p) (set_fanSpeed p s))).
  - apply setSpeedRelays_outputs, convertSpeed_range.
  - apply (ram_fields _ _ (EEPROM_update_ram _ _ _)).
Qed.

Lemma setup_replay_eeprom (s : State) (k : Z) :
  eeprom (setup_replay s) k = eeprom s k.
Proof.
  unfold setup_replay. rewrite setterFan_eeprom.
  destruct (Z.eqb_spec k EEPROM_ADDRESS) as [->|N]; reflexivity.
Qed.

Lemma setup_replay_frame (s : State) :
  fanSpeed (setup_replay s) = EEPROM_read EEPROM_ADDRESS s /\
  parameters (setup_replay s) = parameters s /\
  pendingCfgParamSave (setup_replay s) = pendingCfgParamSave s /\
  relayOutputs (setup_replay s) =
    map Some (relayRow (convertSpeed (EEPROM_read EEPROM_ADDRESS s))).
Proof.
  unfold setup_replay.
  set (s1 := for_loop NUMBER_OF_RELAYS _ s).
  assert (EEPROM_read EEPROM_ADDRESS s1 = EEPROM_read EEPROM_ADDRESS s) as E0
    by reflexivity.
  assert (parameters s1 = parameters s) as E1 by reflexivity.
  assert (pendingCfgParamSave s1 = pendingCfgParamSave s) as E2 by reflexivity.
  rewrite E0, <- E1, <- E2. clearbody s1.
  destruct (setterFan_frame (EEPROM_read EEPROM_ADDRESS s) s1) as (Ef & Ep & Eb).
  split; [exact Ef|]. split; [exact Ep|]. split; [exact Eb|].
  apply setterFan_outputs.
Qed.

Lemma setup_branches (s : State) :
  setup s =
    if verifyChecksum s
    then loadParameters (setup_replay s)
    else saveParameters (setDefaultParameters (setup_replay s)).
Proof.
  rewrite <- (verifyChecksum_ext s (setup_replay s)) by apply setup_replay_eeprom.
  unfold setup, setup_replay. cbv zeta. reflexivity.
Qed.

Lemma setDefaultParameters_frame (s : State) :
  eeprom (setDefaultParameters s) = eeprom s /\
  pinLevel (setDefaultParameters s) = pinLevel s /\
  fanSpeed (setDefaultParameters s) = fanSpeed s /\
  pendingCfgParamSave (setDefaultParameters s) = pendingCfgParamSave s /\
  parameters (setDefaultParameters s) = parametersDefault.
Proof. repeat split. Qed.

Lemma setup_fan (s : State) :
  fanSpeed (setup s) = EEPROM_read EEPROM_ADDRESS s /\
  relayOutputs (setup s) =
    map Some (relayRow (convertSpeed (EEPROM_read EEPROM_ADDRESS s))).
Proof.
  rewrite setup_branches.
  destruct (setup_replay_frame s) as (Ef & _ & _ & Er).
  destruct (verifyChecksum s).
  - destruct (loadParameters_frame (setup_replay s)) as (_ & Epl & Efs & _).
    split; [rewrite Efs; exact Ef|].
    rewrite <- Er. apply relayOutputs_ext. exact Epl.
  - pose proof (ram_fields _ _ (saveParameters_ram (setDefaultParameters (setup_replay s))))
      as (Epl & Efs & _).
    destruct (setDefaultParameters_frame (setup_replay s)) as (_ & Epl' & Efs' & _).
    split; [rewrite Efs, Efs'; exact Ef|].
    rewrite <- Er. apply relayOutputs_ext. rewrite Epl. exact Epl'.
Qed.


(** C2: the fan setting survives a power cycle.  After [setterFan p] and a
    reboot (which reads the persisted byte and replays it through
    [setterFan]), [getterFan] returns [p] and the five relay outputs are the
    ones [setSpeedRelays (convertSpeed p)] produces, that is the table row
    of [convertSpeed p]. *)
Theorem setterFan_survives_reboot (p : Z) (s s0 : State) :
  is_u8 p ->
  EEPROM_read EEPROM_ADDRESS (setterFan p s) = p /\
  getterFan (reboot (setterFan p s)) = p /\
  relayOutputs (reboot (setterFan p s)) =
    relayOutputs (setSpeedRelays (convertSpeed p) s0) /\
  relayOutputs (reboot (setterFan p s)) = map Some (relayRow (convertSpeed p)).
Proof.
  intros _.
  assert (EEPROM_read EEPROM_ADDRESS (setterFan p s) = p) as Ep.
  { unfold EEPROM_read. rewrite setterFan_eeprom. reflexivity. }
  unfold reboot, boot, getterFan.
  destruct (setup_fan (power_on (eeprom (setterFan p s)))) as (Ef & Er).
  change (EEPROM_read EEPROM_ADDRESS (power_on (eeprom (setterFan p s))))
    with (EEPROM_read EEPROM_ADDRESS (setterFan p s)) in Ef, Er.
  rewrite Ep in Ef, Er.
  split; [exact Ep|]. split; [exact Ef|]. split; [|exact Er].
  rewrite Er. symmetry. apply setSpeedRelays_outputs, convertSpeed_range.
Qed.

(** C9: [convertSpeed] has no error path and validates nothing: on every
    byte it returns a speed value of the table, and every byte from 100 to
    255 gives 5 (Full).  Hence the boot replay accepts any persisted byte:
    whatever byte the EEPROM holds at [EEPROM_ADDRESS], after boot it is the
    fan speed and the relays show the row of its conversion. *)
Theorem convertSpeed_total (p : Z) :
  is_u8 p ->
  0 <= convertSpeed p <= 5 /\
  (100 <= p -> convertSpeed p = 5) /\
  forall e : Z -> Z, e EEPROM_ADDRESS = p ->
    getterFan (boot e) = p /\
    relayOutputs (boot e) = map Some (relayRow (convertSpeed p)).
Proof.
  intros _. split; [apply convertSpeed_range|]. split.
  - intros Hp. pose proof (convertSpeed_cases p). lia.
  - intros e <-. unfold boot, getterFan. apply (setup_fan (power_on e)).
Qed.

(** ** Boot with a corrupt parameter block *)

Lemma wf_params_default : wf_params parametersDefault.
Proof.
  split; [reflexivity|].
  repeat constructor; unfold TEMP_HYSTERESIS_DEFAULT, HUM_HYSTERESIS_DEFAULT,
    READ_INTERVAL_DEFAULT_S; lia.
Qed.

Lemma verifyChecksum_false (s : State) :
  verifyChecksum s = false <-> storedBlockSum s <> EEPROM_read CHECKSUM_ADDRESS s.
Proof. unfold verifyChecksum. apply Z.eqb_neq. Qed.

Lemma verifyChecksum_true (s : State) :
  verifyChecksum s = true <-> storedBlockSum s = EEPROM_read CHECKSUM_ADDRESS s.
Proof. unfold verifyChecksum. apply Z.eqb_eq. Qed.

Lemma boot_corrupt (e : Z -> Z) :
  verifyChecksum (power_on e) = false ->
  boot e = saveParameters (setDefaultParameters (setup_replay (power_on e))).
Proof.
  intros Hv. unfold boot. rewrite setup_branches, Hv. reflexivity.
Qed.

Lemma boot_valid (e : Z -> Z) :
  verifyChecksum (power_on e) = true ->
  boot e = loadParameters (setup_replay (power_on e)).
Proof.
  intros Hv. unfold boot. rewrite setup_branches, Hv. reflexivity.
Qed.

Lemma boot_corrupt_resets_core (e : Z -> Z) :
  verifyChecksum (power_on e) = false ->
  parameters (boot e) = parametersDefault /\
  parameters (loadParameters (boot e)) = parametersDefault /\
  EEPROM_read CHECKSUM_ADDRESS (boot e) = paramChecksum parametersDefault /\
  verifyChecksum (boot e) = true.
Proof.
  intros Hv. rewrite (boot_corrupt e Hv).
  set (sd := setDefaultParameters (setup_replay (power_on e))).
  assert (parameters sd = parametersDefault) as Ed by reflexivity.
  clearbody sd.
  pose proof (ram_fields _ _ (saveParameters_ram sd)) as (_ & _ & Ep & _).
  split; [rewrite Ep; exact Ed|].
  split.
  { rewrite loadParameters_saveParameters; [exact Ed|].
    rewrite Ed. apply wf_params_default. }
  split.
  { unfold EEPROM_read. rewrite saveParameters_eeprom, Ed. reflexivity. }
  apply verifyChecksum_saveParameters.
Qed.

(** C3: boot with a corrupt parameter block.  Whenever the stored checksum
    byte differs from the byte sum of the stored parameter block, boot
    leaves the three in-memory parameters at the compiled-in defaults,
    has them persisted (loading the stored block gives the defaults back),
    and has stored the checksum of the defaults, so that [verifyChecksum]
    returns true afterwards. *)
Theorem boot_corrupt_resets_defaults (e : Z -> Z) :
  storedBlockSum (power_on e) <> EEPROM_read CHECKSUM_ADDRESS (power_on e) ->
  parameters (boot e) = parametersDefault /\
  parameters (loadParameters (boot e)) = parametersDefault /\
  EEPROM_read CHECKSUM_ADDRESS (boot e) = paramChecksum parametersDefault /\
  storedBlockSum (boot e) = EEPROM_read CHECKSUM_ADDRESS (boot e) /\
  verifyChecksum (boot e) = true.
Proof.
  intros Hv. apply verifyChecksum_false in Hv.
  destruct (boot_corrupt_resets_core e Hv) as (H1 & H2 & H3 & H4).
  repeat split; try assumption.
  apply verifyChecksum_true. exact H4.
Qed.

(** ** configParameterChanged *)

Lemma configParameterChanged_in_range (q v : Z) (s : State) :
  64 <= q <= 66 ->
  configParameterChanged q v s =
    set_pendingCfgParamSave true
      (set_parameters
         (<[Z.to_nat (q - PARAMETER_FIRST_NUMBER) :=
              if (q =? 66) && (v <? READ_INTERVAL_MIN) then READ_INTERVAL_MIN else v]>
            (parameters s)) s).
Proof.
  intros Hq.
  assert (q = 64 \/ q = 65 \/ q = 66) as [->|[->| ->]] by lia; reflexivity.
Qed.

Lemma u8_below_base (q : Z) :
  is_u8 q -> q < 64 -> u8 (q - PARAMETER_FIRST_NUMBER) = q + 192.
Proof.
  unfold is_u8, u8, PARAMETER_FIRST_NUMBER. intros Hq Hl.
  symmetry. apply Z.mod_unique with (-1); lia.
Qed.

Lemma configParameterChanged_dropped (q v : Z) (s : State) :
  is_u8 q -> ~ (64 <= q <= 66) -> configParameterChanged q v s = s.
Proof.
  intros Hq Hn. unfold configParameterChanged.
  assert (3 <= u8 (q - PARAMETER_FIRST_NUMBER)) as H3.
  { destruct (Z_lt_ge_dec q 64) as [Hl|Hg].
    - rewrite u8_below_base by assumption. unfold is_u8 in Hq. lia.
    - unfold is_u8 in Hq. unfold u8, PARAMETER_FIRST_NUMBER.
      rewrite Z.mod_small by lia. lia. }
  change (Z.of_nat PARAM_MAX) with 3.
  destruct (Z.geb_spec (u8 (q - PARAMETER_FIRST_NUMBER)) 3); [reflexivity | lia].
Qed.

(** C5: a change event for a parameter number outside 64..66 is dropped.
    The handler returns the state it was given: the parameters, the
    deferred-save flag, the EEPROM and the trace are untouched.  This
    includes the numbers below 64, for which the [uint8_t] subtraction
    wraps to [q + 192]. *)
Theorem configParameterChanged_out_of_range (q v : Z) (s : State) :
  is_u8 q -> ~ (64 <= q <= 66) ->
  configParameterChanged q v s = s /\
  parameters (configParameterChanged q v s) = parameters s /\
  pendingCfgParamSave (configParameterChanged q v s) = pendingCfgParamSave s /\
  eeprom (configParameterChanged q v s) = eeprom s /\
  emitted s (configParameterChanged q v s) = [] /\
  (q < 64 -> u8 (q - PARAMETER_FIRST_NUMBER) = q + 192).
Proof.
  intros Hq Hn.
  rewrite (configParameterChanged_dropped q v s Hq Hn).
  repeat split.
  - apply emitted_same. reflexivity.
  - apply u8_below_base. exact Hq.
Qed.

(** ** loop *)

Lemma loop_poll_frame (now t h : Z) (s : State) :
  eeprom (loop_poll now t h s) = eeprom s /\
  pinLevel (loop_poll now t h s) = pinLevel s /\
  fanSpeed (loop_poll now t h s) = fanSpeed s /\
  parameters (loop_poll now t h s) = parameters s /\
  pendingCfgParamSave (loop_poll now t h s) = pendingCfgParamSave s.
Proof.
  unfold loop_poll. destruct (poll_due now s); [|repeat split].
  cbv zeta.
  repeat match goal with
         | |- context [if exceeds ?a ?b ?c then _ else _] => destruct (exceeds a b c)
         end; repeat split.
Qed.

Lemma loop_poll_idle (now t h : Z) (s : State) :
  poll_due now s = false -> loop_poll now t h s = s.
Proof. unfold loop_poll. intros ->. reflexivity. Qed.

Lemma loop_poll_due (now t h : Z) (s : State) :
  poll_due now s = true ->
  let fireT := exceeds t (sentTemperature s) (parameters s !!! PARAM_TEMP_HYSTERESIS) in
  let fireH := exceeds h (sentHumidity s) (parameters s !!! PARAM_HUM_HYSTERESIS) in
  trace (loop_poll now t h s) =
    trace s ++ (if fireT then [EvSendReport CH_TEMP] else [])
            ++ (if fireH then [EvSendReport CH_HUM] else []) /\
  temperature (loop_poll now t h s) = t /\
  humidity (loop_poll now t h s) = h /\
  sentTemperature (loop_poll now t h s) = (if fireT then t else sentTemperature s) /\
  sentHumidity (loop_poll now t h s) = (if fireH then h else sentHumidity s) /\
  lastMillis (loop_poll now t h s) = now.
Proof.
  intros Hd. unfold loop_poll. rewrite Hd. clear Hd. cbv zeta.
  destruct s as [e pl t0 st h0 sh fs ps pend lm tr].
  change (temperature (set_humidity h (set_temperature t (set_lastMillis now
            (mkState e pl t0 st h0 sh fs ps pend lm tr))))) with t.
  change (sentTemperature (set_humidity h (set_temperature t (set_lastMillis now
            (mkState e pl t0 st h0 sh fs ps pend lm tr))))) with st.
  change (parameters (set_humidity h (set_temperature t (set_lastMillis now
            (mkState e pl t0 st h0 sh fs ps pend lm tr))))) with ps.
  cbn [sentTemperature sentHumidity parameters trace].
  destruct (exceeds t st (ps !!! PARAM_TEMP_HYSTERESIS));
    match goal with
    | |- context [if exceeds ?a ?b ?c then _ else _] =>
        change a with h; change b with sh; change c with (ps !!! PARAM_HUM_HYSTERESIS)
    end;
    destruct (exceeds h sh (ps !!! PARAM_HUM_HYSTERESIS));
    cbn; rewrite ?app_nil_r, <- ?app_assoc; repeat split.
Qed.

Lemma loop_steps (now t h : Z) (s : State) :
  loop now t h s =
    if pendingCfgParamSave s
    then set_pendingCfgParamSave false (saveParameters (loop_poll now t h s))
    else loop_poll now t h s.
Proof.
  destruct (loop_poll_frame now t h s) as (_ & _ & _ & _ & Eb).
  rewrite <- Eb. unfold loop, loop_poll. cbv zeta. reflexivity.
Qed.

Lemma EEPROM_update_trace (a v : Z) (s : State) :
  exists evs, trace (EEPROM_update a v s) = trace s ++ evs /\
              Forall is_eeprom_write evs.
Proof.
  unfold EEPROM_update. destruct (EEPROM_read a s =? v).
  - exists []. split; [symmetry; apply app_nil_r | constructor].
  - exists [EvEepromWrite a v]. split; [reflexivity|].
    repeat constructor.
Qed.

Lemma zunoSaveCFGParam_trace (q v : Z) (s : State) :
  exists evs, trace (zunoSaveCFGParam q v s) = trace s ++ evs /\
              Forall is_eeprom_write evs.
Proof.
  unfold zunoSaveCFGParam.
  destruct cfgHighByteFirst;
    match goal with |- context [EEPROM_update ?a1 ?v1 (EEPROM_update ?a0 ?v0 s)] =>
      destruct (EEPROM_update_trace a0 v0 s) as (l0 & E0 & F0);
      destruct (EEPROM_update_trace a1 v1 (EEPROM_update a0 v0 s)) as (l1 & E1 & F1)
    end;
    exists (l0 ++ l1); (split; [rewrite E1, E0, app_assoc; reflexivity |]);
    apply Forall_app; split; assumption.
Qed.

Lemma saveParameters_trace (s : State) :
  exists evs, trace (saveParameters s) = trace s ++ evs /\
              Forall is_eeprom_write evs.
Proof.
  rewrite saveParameters_steps.
  set (p0 := parameters s !!! 0%nat). set (p1 := parameters s !!! 1%nat).
  set (p2 := parameters s !!! 2%nat). set (c := paramChecksum (parameters s)).
  destruct (zunoSaveCFGParam_trace 64 p0 s) as (l0 & E0 & F0).
  set (s0 := zunoSaveCFGParam 64 p0 s) in *.
  destruct (zunoSaveCFGParam_trace 65 p1 s0) as (l1 & E1 & F1).
  set (s1 := zunoSaveCFGParam 65 p1 s0) in *.
  destruct (zunoSaveCFGParam_trace 66 p2 s1) as (l2 & E2 & F2).
  set (s2 := zunoSaveCFGParam 66 p2 s1) in *.
  destruct (EEPROM_update_trace CHECKSUM_ADDRESS c s2) as (l3 & E3 & F3).
  exists (l0 ++ l1 ++ l2 ++ l3). split.
  - rewrite E3, E2, E1, E0, <- !app_assoc. reflexivity.
  - repeat (apply Forall_app; split); assumption.
Qed.

Lemma reported_channels_app (l1 l2 : list Event) :
  reported_channels (l1 ++ l2) = reported_channels l1 ++ reported_channels l2.
Proof. unfold reported_channels. apply flat_map_app. Qed.

Lemma reported_channels_eeprom (evs : list Event) :
  Forall is_eeprom_write evs -> reported_channels evs = [].
Proof.
  induction 1 as [|ev evs Hev _ IH]; [reflexivity|].
  destruct ev; cbn in Hev; try contradiction. exact IH.
Qed.

Lemma loop_reported (now t h : Z) (s : State) :
  poll_due now s = true ->
  reported_channels (emitted s (loop now t h s)) =
    (if exceeds t (sentTemperature s) (parameters s !!! PARAM_TEMP_HYSTERESIS)
     then [CH_TEMP] else []) ++
    (if exceeds h (sentHumidity s) (parameters s !!! PARAM_HUM_HYSTERESIS)
     then [CH_HUM] else []).
Proof.
  intros Hd. destruct (loop_poll_due now t h s Hd) as (Et & _).
  cbv zeta in Et. rewrite loop_steps.
  destruct (pendingCfgParamSave s).
  - destruct (saveParameters_trace (loop_poll now t h s)) as (evs & Es & Fs).
    rewrite (emitted_app s _ (((if exceeds t (sentTemperature s) (parameters s !!! PARAM_TEMP_HYSTERESIS)
       then [EvSendReport CH_TEMP] else []) ++
      (if exceeds h (sentHumidity s) (parameters s !!! PARAM_HUM_HYSTERESIS)
       then [EvSendReport CH_HUM] else [])) ++ evs)).
    + rewrite !reported_channels_app, (reported_channels_eeprom evs Fs), app_nil_r.
      destruct (exceeds t _ _), (exceeds h _ _); reflexivity.
    + change (trace (set_pendingCfgParamSave false (saveParameters (loop_poll now t h s))))
        with (trace (saveParameters (loop_poll now t h s))).
      rewrite Es, Et, <- !app_assoc. reflexivity.
  - rewrite (emitted_app s _ _ Et), reported_channels_app.
    destruct (exceeds t _ _), (exceeds h _ _); reflexivity.
Qed.

Lemma loop_sent (now t h : Z) (s : State) :
  poll_due now s = true ->
  temperature (loop now t h s) = t /\
  humidity (loop now t h s) = h /\
  sentTemperature (loop now t h s) =
    (if exceeds t (sentTemperature s) (parameters s !!! PARAM_TEMP_HYSTERESIS)
     then t else sentTemperature s) /\
  sentHumidity (loop now t h s) =
    (if exceeds h (sentHumidity s) (parameters s !!! PARAM_HUM_HYSTERESIS)
     then h else sentHumidity s).
Proof.
  intros Hd. destruct (loop_poll_due now t h s Hd) as (_ & E1 & E2 & E3 & E4 & _).
  cbv zeta in E3, E4. rewrite loop_steps.
  destruct (pendingCfgParamSave s).
  - pose proof (ram_fields _ _ (saveParameters_ram (loop_poll now t h s)))
      as (_ & _ & _ & _ & R1 & R2 & R3 & R4 & _).
    change (temperature (set_pendingCfgParamSave false ?x)) with (temperature x).
    change (humidity (set_pendingCfgParamSave false ?x)) with (humidity x).
    change (sentTemperature (set_pendingCfgParamSave false ?x)) with (sentTemperature x).
    change (sentHumidity (set_pendingCfgParamSave false ?x)) with (sentHumidity x).
    rewrite R1, R2, R3, R4. repeat split; assumption.
  - repeat split; assumption.
Qed.

Lemma loop_idle (now t h : Z) (s : State) :
  poll_due now s = false ->
  reported_channels (emitted s (loop now t h s)) = [] /\
  sentTemperature (loop now t h s) = sentTemperature s /\
  sentHumidity (loop now t h s) = sentHumidity s.
Proof.
  intros Hd. rewrite loop_steps, (loop_poll_idle now t h s Hd).
  destruct (pendingCfgParamSave s).
  - destruct (saveParameters_trace s) as (evs & Es & Fs).
    pose proof (ram_fields _ _ (saveParameters_ram s))
      as (_ & _ & _ & _ & _ & R2 & _ & R4 & _).
    split; [|split; [exact R2 | exact R4]].
    rewrite (emitted_app s _ evs) by exact Es.
    apply reported_channels_eeprom. exact Fs.
  - split; [|split; reflexivity].
    rewrite emitted_same by reflexivity. reflexivity.
Qed.

Lemma exceeds_fits (reading sent threshold : Z) :
  -32768 <= reading - sent < 32768 ->
  exceeds reading sent threshold = (Z.abs (reading - sent) >=? threshold).
Proof.
  intros Hd. unfold exceeds. f_equal.
  assert (forall x, -32768 <= x < 32768 -> wrap_i16 x = x) as Hw.
  { intros x Hx. unfold wrap_i16. rewrite Z.mod_small by lia. lia. }
  rewrite (Hw (reading - sent)) by exact Hd.
  destruct (Z.eq_dec (reading - sent) (-32768)) as [E|N].
  - rewrite E. reflexivity.
  - rewrite (Hw (Z.abs (reading - sent))) by lia.
    unfold u16. apply Z.mod_small. lia.
Qed.


Lemma exceeds_same (x threshold : Z) :
  0 < threshold -> exceeds x x threshold = false.
Proof.
  intros Ht. rewrite exceeds_fits by lia. rewrite Z.sub_diag.
  destruct (Z.geb_spec (Z.abs 0) threshold) as [H'|H']; [cbn in H'; lia | reflexivity].
Qed.

Lemma exceeds_zero (reading sent : Z) : exceeds reading sent 0 = true.
Proof.
  unfold exceeds.
  pose proof (u16_range (wrap_i16 (Z.abs (wrap_i16 (reading - sent))))) as Hr.
  unfold is_u16 in Hr.
  destruct (Z.geb_spec (u16 (wrap_i16 (Z.abs (wrap_i16 (reading - sent))))) 0);
    [reflexivity | lia].
Qed.

Lemma report_list_membership (bT bH : bool) :
  (CH_TEMP ∈ (if bT then [CH_TEMP] else []) ++ (if bH then [CH_HUM] else [])
     <-> bT = true) /\
  (CH_HUM ∈ (if bT then [CH_TEMP] else []) ++ (if bH then [CH_HUM] else [])
     <-> bH = true).
Proof.
  destruct bT, bH; cbn [app];
    rewrite ?elem_of_cons, ?elem_of_nil; unfold CH_TEMP, CH_HUM;
    (split; split; intros H'; try reflexivity; try discriminate H'; try lia);
    auto.
Qed.




(** ** Deferred save *)

Lemma wf_params_insert (ps : list Z) (i : nat) (v : Z) :
  wf_params ps -> is_u16 v -> wf_params (<[i := v]> ps).
Proof.
  intros [Hl Hf] Hv. split.
  - rewrite length_insert. exact Hl.
  - apply Forall_insert; assumption.
Qed.

Lemma loadParameters_ext (s s' : State) :
  (forall k, eeprom s' k = eeprom s k) ->
  length (parameters s) = PARAM_MAX ->
  length (parameters s') = PARAM_MAX ->
  parameters (loadParameters s') = parameters (loadParameters s).
Proof.
  intros E Hl Hl'.
  rewrite !loadParameters_parameters by assumption.
  rewrite !(zunoLoadCFGParam_ext _ s s' E). reflexivity.
Qed.

Lemma loop_saves (now t h : Z) (s : State) :
  pendingCfgParamSave s = true ->
  wf_params (parameters s) ->
  parameters (loop now t h s) = parameters s /\
  pendingCfgParamSave (loop now t h s) = false /\
  parameters (loadParameters (loop now t h s)) = parameters s /\
  EEPROM_read CHECKSUM_ADDRESS (loop now t h s) = paramChecksum (parameters s) /\
  verifyChecksum (loop now t h s) = true.
Proof.
  intros Hp Hwf. rewrite loop_steps, Hp.
  destruct (loop_poll_frame now t h s) as (_ & _ & _ & Epp & _).
  set (sp := loop_poll now t h s) in *. clearbody sp.
  pose proof (ram_fields _ _ (saveParameters_ram sp)) as (_ & _ & Eps & _).
  assert (forall k, eeprom (set_pendingCfgParamSave false (saveParameters sp)) k =
                    eeprom (saveParameters sp) k) as Ee by reflexivity.
  assert (parameters (set_pendingCfgParamSave false (saveParameters sp)) =
          parameters (saveParameters sp)) as Ep by reflexivity.
  split; [rewrite Ep, Eps; exact Epp|].
  split; [reflexivity|].
  split.
  { rewrite (loadParameters_ext (saveParameters sp)).
    - rewrite loadParameters_saveParameters by (rewrite Epp; exact Hwf). exact Epp.
    - exact Ee.
    - rewrite Eps, Epp. apply Hwf.
    - rewrite Ep, Eps, Epp. apply Hwf. }
  split.
  { unfold EEPROM_read. rewrite Ee, saveParameters_eeprom, Epp. reflexivity. }
  rewrite (verifyChecksum_ext (saveParameters sp)) by exact Ee.
  apply verifyChecksum_saveParameters.
Qed.

(** C4: an in-range parameter change is applied at once and saved later.
    For parameter number 64, 65 or 66 the handler stores the value in the
    in-memory parameter (the read interval, number 66, is raised to 30 when
    the value is smaller), sets the deferred-save flag and writes nothing to
    the EEPROM.  After the next iteration of [loop], whether or not the host
    has stored the event's value in between, the flag is cleared, the
    in-memory parameters are the persisted ones, and the persisted checksum
    byte is the checksum recomputed over the persisted block. *)
Theorem configParameterChanged_deferred_save (q v now t h : Z) (s : State) :
  64 <= q <= 66 -> is_u16 v -> wf_params (parameters s) ->
  let i := Z.to_nat (q - PARAMETER_FIRST_NUMBER) in
  let v' := if (q =? 66) && (v <? READ_INTERVAL_MIN) then READ_INTERVAL_MIN else v in
  let s1 := configParameterChanged q v s in
  (parameters s1 = <[i := v']> (parameters s) /\
   parameters s1 !!! i = v' /\
   pendingCfgParamSave s1 = true /\
   eeprom s1 = eeprom s /\
   emitted s s1 = []) /\
  (forall s1', s1' = s1 \/ s1' = hostStoreCfgParam q v s1 ->
     let s2 := loop now t h s1' in
     pendingCfgParamSave s2 = false /\
     parameters s2 = parameters s1 /\
     parameters (loadParameters s2) = parameters s2 /\
     storedBlockSum s2 = EEPROM_read CHECKSUM_ADDRESS s2 /\
     verifyChecksum s2 = true).
Proof.
  intros Hq Hv Hwf i v' s1.
  assert (is_u16 v') as Hv'.
  { subst v'. destruct ((q =? 66) && (v <? READ_INTERVAL_MIN)); [|exact Hv].
    unfold is_u16, READ_INTERVAL_MIN. lia. }
  assert (s1 = set_pendingCfgParamSave true
                 (set_parameters (<[i := v']> (parameters s)) s)) as E1
    by (apply configParameterChanged_in_range; exact Hq).
  assert (parameters s1 = <[i := v']> (parameters s)) as Ep by (rewrite E1; reflexivity).
  assert (pendingCfgParamSave s1 = true) as Eb by (rewrite E1; reflexivity).
  assert (wf_params (parameters s1)) as Hwf1
    by (rewrite Ep; apply wf_params_insert; assumption).
  split.
  { split; [exact Ep|]. split.
    { rewrite Ep. apply list_lookup_total_insert_eq.
      destruct Hwf as [Hl _]. rewrite Hl. subst i.
      unfold PARAMETER_FIRST_NUMBER, PARAM_MAX. lia. }
    split; [exact Eb|]. split; [rewrite E1; reflexivity|].
    apply emitted_same. rewrite E1. reflexivity. }
  intros s1' Hs1' s2.
  assert (pendingCfgParamSave s1' = true /\ parameters s1' = parameters s1) as (Eb' & Ep').
  { destruct Hs1' as [->| ->]; [split; [exact Eb | reflexivity]|].
    unfold hostStoreCfgParam.
    pose proof (ram_fields _ _ (zunoSaveCFGParam_ram q v s1)) as (_ & _ & -> & -> & _).
    split; [exact Eb | reflexivity]. }
  assert (wf_params (parameters s1')) as Hwf1' by (rewrite Ep'; exact Hwf1).
  destruct (loop_saves now t h s1' Eb' Hwf1') as (L1 & L2 & L3 & L4 & L5).
  fold s2 in L1, L2, L3, L4, L5.
  split; [exact L2|]. split; [rewrite L1; exact Ep'|].
  split; [rewrite L3, L1; reflexivity|].
  split; [apply verifyChecksum_true; exact L5 | exact L5].
Qed.

(** ** Well-formedness is preserved *)

Lemma cfgFirstByte_range (w : Z) : is_u8 (cfgFirstByte w).
Proof. unfold cfgFirstByte. destruct cfgHighByteFirst; apply u8_range. Qed.

Lemma cfgSecondByte_range (w : Z) : is_u8 (cfgSecondByte w).
Proof. unfold cfgSecondByte. destruct cfgHighByteFirst; apply u8_range. Qed.

Lemma paramChecksum_range (ps : list Z) : is_u8 (paramChecksum ps).
Proof. rewrite paramChecksum_unfold. apply u8_range. Qed.

Lemma wf_eeprom_ext (e e' : Z -> Z) :
  (forall k, e' k = e k) -> wf_eeprom e -> wf_eeprom e'.
Proof. intros E H k. rewrite E. apply H. Qed.

Lemma wf_eeprom_setterFan (p : Z) (s : State) :
  is_u8 p -> wf_eeprom (eeprom s) -> wf_eeprom (eeprom (setterFan p s)).
Proof.
  intros Hp H k. rewrite setterFan_eeprom.
  destruct (k =? EEPROM_ADDRESS); [exact Hp | apply H].
Qed.

Lemma wf_eeprom_zunoSaveCFGParam (q v : Z) (s : State) :
  wf_eeprom (eeprom s) -> wf_eeprom (eeprom (zunoSaveCFGParam q v s)).
Proof.
  intros H k. rewrite zunoSaveCFGParam_eeprom.
  destruct (k =? cfgParamAddress q + 1); [apply cfgSecondByte_range|].
  destruct (k =? cfgParamAddress q); [apply cfgFirstByte_range | apply H].
Qed.

Lemma wf_eeprom_saveParameters (s : State) :
  wf_eeprom (eeprom s) -> wf_eeprom (eeprom (saveParameters s)).
Proof.
  intros H k. rewrite saveParameters_eeprom.
  repeat match goal with
         | |- is_u8 (if ?c then _ else _) => destruct c
         end;
    first [apply paramChecksum_range | apply cfgSecondByte_range
          | apply cfgFirstByte_range | apply H].
Qed.

Lemma wf_state_loop (now t h : Z) (s : State) :
  wf_state s -> wf_state (loop now t h s).
Proof.
  intros [He Hp]. rewrite loop_steps.
  destruct (loop_poll_frame now t h s) as (Ee & _ & _ & Epp & _).
  set (sp := loop_poll now t h s) in *. clearbody sp.
  destruct (pendingCfgParamSave s).
  - pose proof (ram_fields _ _ (saveParameters_ram sp)) as (_ & _ & Eps & _).
    split.
    + change (eeprom (set_pendingCfgParamSave false (saveParameters sp)))
        with (eeprom (saveParameters sp)).
      apply wf_eeprom_saveParameters. rewrite Ee. exact He.
    + change (parameters (set_pendingCfgParamSave false (saveParameters sp)))
        with (parameters (saveParameters sp)).
      rewrite Eps, Epp. exact Hp.
  - split; [rewrite Ee; exact He | rewrite Epp; exact Hp].
Qed.

Lemma wf_state_configParameterChanged (q v : Z) (s : State) :
  is_u8 q -> is_u16 v -> wf_state s -> wf_state (configParameterChanged q v s).
Proof.
  intros Hq Hv [He Hp].
  destruct (Z_le_gt_dec 64 q) as [H1|H1]; [destruct (Z_le_gt_dec q 66) as [H2|H2]|].
  - rewrite configParameterChanged_in_range by lia.
    split; [exact He|].
    change (parameters (set_pendingCfgParamSave true (set_parameters ?ps s))) with ps.
    apply wf_params_insert; [exact Hp|].
    destruct ((q =? 66) && (v <? READ_INTERVAL_MIN)); [|exact Hv].
    unfold is_u16, READ_INTERVAL_MIN. lia.
  - rewrite configParameterChanged_dropped by (try assumption; lia).
    split; assumption.
  - rewrite configParameterChanged_dropped by (try assumption; lia).
    split; assumption.
Qed.

Lemma zunoLoadCFGParam_range (q : Z) (s : State) : is_u16 (zunoLoadCFGParam q s).
Proof. unfold zunoLoadCFGParam. destruct cfgHighByteFirst; apply u16_range. Qed.

Lemma boot_valid_parameters (e : Z -> Z) :
  verifyChecksum (power_on e) = true ->
  parameters (boot e) =
    [zunoLoadCFGParam 64 (power_on e); zunoLoadCFGParam 65 (power_on e);
     zunoLoadCFGParam 66 (power_on e)].
Proof.
  intros Hv. rewrite (boot_valid e Hv).
  destruct (setup_replay_frame (power_on e)) as (_ & Ep & _).
  rewrite loadParameters_parameters by (rewrite Ep; reflexivity).
  rewrite !(zunoLoadCFGParam_ext _ (power_on e) (setup_replay (power_on e)))
    by apply setup_replay_eeprom.
  reflexivity.
Qed.

Lemma boot_valid_eeprom (e : Z -> Z) (k : Z) :
  verifyChecksum (power_on e) = true -> eeprom (boot e) k = e k.
Proof.
  intros Hv. rewrite (boot_valid e Hv).
  destruct (loadParameters_frame (setup_replay (power_on e))) as (-> & _).
  apply (setup_replay_eeprom (power_on e)).
Qed.

Lemma boot_corrupt_eeprom (e : Z -> Z) :
  verifyChecksum (power_on e) = false ->
  wf_eeprom e -> wf_eeprom (eeprom (boot e)).
Proof.
  intros Hv He. rewrite (boot_corrupt e Hv).
  apply wf_eeprom_saveParameters.
  destruct (setDefaultParameters_frame (setup_replay (power_on e))) as (-> & _).
  apply (wf_eeprom_ext e); [|exact He].
  apply (setup_replay_eeprom (power_on e)).
Qed.

Lemma wf_state_boot (e : Z -> Z) : wf_eeprom e -> wf_state (boot e).
Proof.
  intros He. destruct (verifyChecksum (power_on e)) eqn:Hv.
  - split.
    + apply (wf_eeprom_ext e); [|exact He].
      intros k. apply boot_valid_eeprom. exact Hv.
    + rewrite (boot_valid_parameters e Hv). split; [reflexivity|].
      repeat constructor; apply zunoLoadCFGParam_range.
  - split; [apply boot_corrupt_eeprom; assumption|].
    pose proof (verifyChecksum_false (power_on e)) as [Hn _].
    destruct (boot_corrupt_resets_core e Hv) as (-> & _).
    apply wf_params_default.
Qed.

Lemma wf_state_step (s s' : State) : wf_state s -> Step s s' -> wf_state s'.
Proof.
  intros Hwf Hst. destruct Hst as [p s Hp|q v s Hq Hv|q v s Hq Hv|now t h s|s].
  - destruct Hwf as [He Hps]. split.
    + apply wf_eeprom_setterFan; assumption.
    + destruct (setterFan_frame p s) as (_ & -> & _). exact Hps.
  - apply wf_state_configParameterChanged; assumption.
  - destruct Hwf as [He Hps]. unfold hostStoreCfgParam. split.
    + apply wf_eeprom_zunoSaveCFGParam. exact He.
    + pose proof (ram_fields _ _ (zunoSaveCFGParam_ram q v s)) as (_ & _ & -> & _).
      exact Hps.
  - apply wf_state_loop. exact Hwf.
  - apply wf_state_boot. apply Hwf.
Qed.

Lemma wf_state_reachable (s : State) : Reachable s -> wf_state s.
Proof.
  induction 1 as [e He|s s' _ IH Hst].
  - apply wf_state_boot. exact He.
  - apply (wf_state_step s); assumption.
Qed.

(** ** The checksum invariant *)

Lemma paramChecksum_byteSum (ps : list Z) :
  length ps = PARAM_MAX -> paramChecksum ps = byteSum ps.
Proof.
  intros Hl.
  destruct ps as [|p0 [|p1 [|p2 [|p3 ps]]]]; try discriminate Hl.
  rewrite paramChecksum_sum. unfold byteSum.
  cbn [flat_map app fold_right lookup_total list_lookup_total].
  f_equal. lia.
Qed.

Lemma paramChecksum_loaded (s : State) :
  wf_eeprom (eeprom s) ->
  paramChecksum [zunoLoadCFGParam 64 s; zunoLoadCFGParam 65 s; zunoLoadCFGParam 66 s]
  = storedBlockSum s.
Proof.
  intros He. rewrite paramChecksum_unfold, storedBlockSum_unfold.
  change ([zunoLoadCFGParam 64 s; zunoLoadCFGParam 65 s; zunoLoadCFGParam 66 s] !!! 0%nat)
    with (zunoLoadCFGParam 64 s).
  change ([zunoLoadCFGParam 64 s; zunoLoadCFGParam 65 s; zunoLoadCFGParam 66 s] !!! 1%nat)
    with (zunoLoadCFGParam 65 s).
  change ([zunoLoadCFGParam 64 s; zunoLoadCFGParam 65 s; zunoLoadCFGParam 66 s] !!! 2%nat)
    with (zunoLoadCFGParam 66 s).
  rewrite <- !cfg_bytes_sum.
  destruct (zunoLoadCFGParam_bytes 64 s He) as [-> ->].
  destruct (zunoLoadCFGParam_bytes 65 s He) as [-> ->].
  destruct (zunoLoadCFGParam_bytes 66 s He) as [-> ->].
  reflexivity.
Qed.

Lemma boot_checksum (e : Z -> Z) :
  wf_eeprom e ->
  pendingCfgParamSave (boot e) = false /\
  EEPROM_read CHECKSUM_ADDRESS (boot e) = paramChecksum (parameters (boot e)).
Proof.
  intros He. destruct (verifyChecksum (power_on e)) eqn:Hv.
  - split.
    + rewrite (boot_valid e Hv).
      destruct (loadParameters_frame (setup_replay (power_on e))) as (_ & _ & _ & -> & _).
      apply (setup_replay_frame (power_on e)).
    + unfold EEPROM_read. rewrite boot_valid_eeprom by exact Hv.
      rewrite (boot_valid_parameters e Hv), paramChecksum_loaded by exact He.
      symmetry. apply (verifyChecksum_true (power_on e)). exact Hv.
  - split.
    + rewrite (boot_corrupt e Hv).
      pose proof (ram_fields _ _ (saveParameters_ram
        (setDefaultParameters (setup_replay (power_on e))))) as (_ & _ & _ & -> & _).
      destruct (setDefaultParameters_frame (setup_replay (power_on e)))
        as (_ & _ & _ & -> & _).
      apply (setup_replay_frame (power_on e)).
    + destruct (boot_corrupt_resets_core e Hv) as (-> & _ & -> & _). reflexivity.
Qed.

Lemma cfgParamAddress_high (q : Z) : is_u8 q -> 8064 <= cfgParamAddress q.
Proof.
  unfold is_u8, cfgParamAddress, PARAMETER_START_EEPROM_ADDRESS, PARAMETER_FIRST_NUMBER.
  lia.
Qed.

Lemma checksum_inv_step (s s' : State) :
  wf_state s -> checksum_inv s -> Step s s' -> checksum_inv s'.
Proof.
  intros Hwf Hinv Hst. unfold checksum_inv in *.
  destruct Hst as [p s Hp|q v s Hq Hv|q v s Hq Hv|now t h s|s].
  - destruct (setterFan_frame p s) as (_ & -> & ->).
    unfold EEPROM_read. rewrite setterFan_eeprom. exact Hinv.
  - destruct (Z_le_gt_dec 64 q) as [H1|H1]; [destruct (Z_le_gt_dec q 66) as [H2|H2]|].
    + rewrite configParameterChanged_in_range by lia. intros Hb. discriminate Hb.
    + rewrite configParameterChanged_dropped by (try assumption; lia). exact Hinv.
    + rewrite configParameterChanged_dropped by (try assumption; lia). exact Hinv.
  - unfold hostStoreCfgParam.
    pose proof (ram_fields _ _ (zunoSaveCFGParam_ram q v s)) as (_ & _ & -> & -> & _).
    unfold EEPROM_read. rewrite zunoSaveCFGParam_eeprom.
    pose proof (cfgParamAddress_high q Hq) as Ha.
    destruct (Z.eqb_spec CHECKSUM_ADDRESS (cfgParamAddress q + 1)) as [E|_];
      [unfold CHECKSUM_ADDRESS, EEPROM_ADDRESS in E; lia|].
    destruct (Z.eqb_spec CHECKSUM_ADDRESS (cfgParamAddress q)) as [E|_];
      [unfold CHECKSUM_ADDRESS, EEPROM_ADDRESS in E; lia|].
    exact Hinv.
  - destruct (pendingCfgParamSave s) eqn:Hb.
    + destruct (loop_saves now t h s Hb) as (-> & _ & _ & -> & _); [apply Hwf|].
      reflexivity.
    + rewrite loop_steps, Hb.
      destruct (loop_poll_frame now t h s) as (Ee & _ & _ & -> & ->).
      unfold EEPROM_read. rewrite Ee. intros _. apply Hinv. reflexivity.
  - intros _. apply boot_checksum. apply Hwf.
Qed.

Lemma checksum_inv_reachable (s : State) : Reachable s -> checksum_inv s.
Proof.
  induction 1 as [e He|s s' Hr IH Hst].
  - intros _. apply boot_checksum. exact He.
  - apply (checksum_inv_step s); [apply wf_state_reachable| |]; assumption.
Qed.

(** C10: the checksum invariant.  In every state the firmware can reach
    from boot (through fan commands, parameter change events with the host's
    own store, loop iterations and power cycles), whenever no deferred save
    is pending, the byte stored at [CHECKSUM_ADDRESS] is the sum modulo 256
    of the high and low bytes of the in-memory parameters in declared
    order; and every further step re-establishes this. *)
Theorem checksum_invariant (s : State) :
  Reachable s ->
  (pendingCfgParamSave s = false ->
   EEPROM_read CHECKSUM_ADDRESS s = byteSum (parameters s)) /\
  (forall s', Step s s' ->
     pendingCfgParamSave s' = false ->
     EEPROM_read CHECKSUM_ADDRESS s' = byteSum (parameters s')).
Proof.
  intros Hr.
  assert (forall x, Reachable x -> pendingCfgParamSave x = false ->
                    EEPROM_read CHECKSUM_ADDRESS x = byteSum (parameters x)) as H.
  { intros x Hx Hb.
    rewrite <- paramChecksum_byteSum by apply (wf_state_reachable x Hx).
    apply checksum_inv_reachable; assumption. }
  split.
  - apply H. exact Hr.
  - intros s' Hst. apply H. apply (reach_step s); assumption.
Qed.

(** * Further properties of the sketch *)

(** ** convertSpeed and the relay table *)

(** X1: [convertSpeed] is monotone: a larger percentage never gives a lower
    speed value. *)
Theorem convertSpeed_monotone (p q : Z) :
  p <= q -> convertSpeed p <= convertSpeed q.
Proof.
  intros Hpq.
  pose proof (convertSpeed_cases p). pose proof (convertSpeed_cases q). lia.
Qed.

(** X2: on the non-negative percentages [convertSpeed] is the ceiling of
    [p / 20], capped at 5. *)
Theorem convertSpeed_ceiling (p : Z) :
  0 <= p -> convertSpeed p = Z.min 5 ((p + 19) / 20).
Proof.
  intros Hp. pose proof (convertSpeed_cases p) as Hc.
  pose proof (Z.div_mod (p + 19) 20 ltac:(lia)) as Hd.
  pose proof (Z.mod_pos_bound (p + 19) 20 ltac:(lia)) as Hm.
  lia.
Qed.

Lemma relayRow_all_high (v : Z) :
  0 <= v <= 5 ->
  (relayRow v = [HIGH; HIGH; HIGH; HIGH; HIGH] <-> v = 0).
Proof.
  intros Hv.
  assert (v = 0 \/ v = 1 \/ v = 2 \/ v = 3 \/ v = 4 \/ v = 5) as Hc by lia.
  destruct Hc as [->|[->|[->|[->|[->| ->]]]]];
    (split; [intros H'; first [reflexivity | discriminate H']
            | intros H'; first [reflexivity | discriminate H']]).
Qed.

(** X3: the fan is off for the percentage 0 only.  For a byte [p],
    [convertSpeed p] is 0 exactly when [p] is 0, and after [setterFan p] all
    five relays are released (HIGH) exactly when [p] is 0. *)
Theorem fan_off_iff_zero (p : Z) (s : State) :
  is_u8 p ->
  (convertSpeed p = 0 <-> p = 0) /\
  (relayOutputs (setterFan p s) =
     [Some HIGH; Some HIGH; Some HIGH; Some HIGH; Some HIGH] <-> p = 0).
Proof.
  unfold is_u8. intros Hp.
  assert (convertSpeed p = 0 <-> p = 0) as H0.
  { pose proof (convertSpeed_cases p). lia. }
  split; [exact H0|].
  rewrite setterFan_outputs, <- H0.
  rewrite <- (relayRow_all_high (convertSpeed p)) by apply convertSpeed_range.
  split.
  - intros H'. apply (f_equal (omap id)) in H'.
    destruct (relayRow (convertSpeed p)) as [|a [|b [|c [|d [|e [|f l]]]]]];
      cbn in H'; try discriminate H'.
    injection H' as -> -> -> -> ->. reflexivity.
  - intros ->. reflexivity.
Qed.

(** X4: the relay outputs identify the speed value: two speed values of the
    table that leave the five relays in the same state are equal. *)
Theorem relay_outputs_identify_speed (v w : Z) (s s' : State) :
  0 <= v <= 5 -> 0 <= w <= 5 ->
  relayOutputs (setSpeedRelays v s) = relayOutputs (setSpeedRelays w s') ->
  v = w.
Proof.
  intros Hv Hw. rewrite !setSpeedRelays_outputs by assumption.
  assert (v = 0 \/ v = 1 \/ v = 2 \/ v = 3 \/ v = 4 \/ v = 5) as Hcv by lia.
  assert (w = 0 \/ w = 1 \/ w = 2 \/ w = 3 \/ w = 4 \/ w = 5) as Hcw by lia.
  destruct Hcv as [->|[->|[->|[->|[->| ->]]]]];
    destruct Hcw as [->|[->|[->|[->|[->| ->]]]]];
    intros H'; first [reflexivity | discriminate H'].
Qed.

(** X5: the last valid speed value wins.  After [setSpeedRelays v] with [v]
    in the table, the level of every pin is the same whatever
    [setSpeedRelays] call came just before; in particular applying the same
    value twice leaves the pins as applying it once. *)
Theorem setSpeedRelays_overrides (v w : Z) (s : State) (pin : Z) :
  0 <= v <= 5 ->
  pinLevel (setSpeedRelays v (setSpeedRelays w s)) pin =
    pinLevel (setSpeedRelays v s) pin /\
  pinLevel (setSpeedRelays v (setSpeedRelays v s)) pin =
    pinLevel (setSpeedRelays v s) pin.
Proof.
  intros Hv.
  assert (forall u, pinLevel (setSpeedRelays v (setSpeedRelays u s)) pin =
                    pinLevel (setSpeedRelays v s) pin) as H.
  { intros u. rewrite !(setSpeedRelays_pinLevel v) by lia.
    destruct (Z_le_gt_dec u 5) as [Hu|Hu].
    - rewrite (setSpeedRelays_pinLevel u) by exact Hu.
      repeat match goal with |- context [if ?c then _ else _] => destruct c end;
        reflexivity.
    - rewrite setSpeedRelays_out_of_range by lia. reflexivity. }
  split; apply H.
Qed.

(** ** EEPROM wear and footprints *)

Lemma EEPROM_update_trace_exact (a v : Z) (s : State) :
  trace (EEPROM_update a v s) =
    trace s ++ (if EEPROM_read a s =? v then [] else [EvEepromWrite a v]).
Proof.
  unfold EEPROM_update. destruct (EEPROM_read a s =? v).
  - symmetry. apply app_nil_r.
  - reflexivity.
Qed.

Lemma EEPROM_update_noop (a v : Z) (s : State) :
  EEPROM_read a s = v -> EEPROM_update a v s = s.
Proof.
  intros E. unfold EEPROM_update. rewrite E, Z.eqb_refl. reflexivity.
Qed.

Lemma eeprom_writes_app (l1 l2 : list Event) :
  eeprom_writes (l1 ++ l2) = eeprom_writes l1 ++ eeprom_writes l2.
Proof. unfold eeprom_writes. apply flat_map_app. Qed.

Lemma written_pins_app (l1 l2 : list Event) :
  written_pins (l1 ++ l2) = written_pins l1 ++ written_pins l2.
Proof. unfold written_pins. apply flat_map_app. Qed.

Lemma setterFan_trace (p : Z) (s : State) :
  trace (setterFan p s) =
    trace s ++
    [EvDigitalWrite 9 (relayRow (convertSpeed p) !!! 0%nat);
     EvDigitalWrite 10 (relayRow (convertSpeed p) !!! 1%nat);
     EvDigitalWrite 11 (relayRow (convertSpeed p) !!! 2%nat);
     EvDigitalWrite 12 (relayRow (convertSpeed p) !!! 3%nat);
     EvDigitalWrite 14 (relayRow (convertSpeed p) !!! 4%nat)] ++
    (if EEPROM_read EEPROM_ADDRESS s =? p then []
     else [EvEepromWrite EEPROM_ADDRESS p]).
Proof.
  unfold setterFan. rewrite EEPROM_update_trace_exact.
  destruct (setSpeedRelays_frame (convertSpeed p) (set_fanSpeed p s)) as (Ee & _).
  unfold EEPROM_read. rewrite Ee.
  rewrite setSpeedRelays_trace by apply convertSpeed_range.
  change (trace (set_fanSpeed p s)) with (trace s).
  change (eeprom (set_fanSpeed p s)) with (eeprom s).
  rewrite <- app_assoc. reflexivity.
Qed.

(** X6: [setterFan] spares the EEPROM.  A call writes the five relay pins
    and rewrites the cell at [EEPROM_ADDRESS] only when the value differs
    from the stored one; no other cell is written and nothing is reported.
    Setting the same value again writes no EEPROM cell at all. *)
Theorem setterFan_eeprom_wear (p : Z) (s : State) :
  eeprom_writes (emitted s (setterFan p s)) =
    (if EEPROM_read EEPROM_ADDRESS s =? p then [] else [(EEPROM_ADDRESS, p)]) /\
  written_pins (emitted s (setterFan p s)) = take 5 RELAY_PIN /\
  reported_channels (emitted s (setterFan p s)) = [] /\
  eeprom_writes (emitted (setterFan p s) (setterFan p (setterFan p s))) = [].
Proof.
  assert (forall x, eeprom_writes (emitted x (setterFan p x)) =
            (if EEPROM_read EEPROM_ADDRESS x =? p then [] else [(EEPROM_ADDRESS, p)]) /\
          written_pins (emitted x (setterFan p x)) = take 5 RELAY_PIN /\
          reported_channels (emitted x (setterFan p x)) = []) as H.
  { intros x. rewrite (emitted_app x _ _ (setterFan_trace p x)).
    rewrite eeprom_writes_app, written_pins_app, reported_channels_app.
    destruct (EEPROM_read EEPROM_ADDRESS x =? p); repeat split. }
  destruct (H s) as (H1 & H2 & H3).
  split; [exact H1|]. split; [exact H2|]. split; [exact H3|].
  destruct (H (setterFan p s)) as (-> & _).
  unfold EEPROM_read. rewrite setterFan_eeprom.
  change (EEPROM_ADDRESS =? EEPROM_ADDRESS) with true. cbv iota.
  rewrite Z.eqb_refl. reflexivity.
Qed.

(** X7: [setterFan] leaves the parameter store alone.  The parameters, the
    deferred-save flag, the sensor values and every EEPROM cell other than
    [EEPROM_ADDRESS] are unchanged, so the outcome of [verifyChecksum] is
    unchanged as well. *)
Theorem setterFan_preserves_parameter_store (p : Z) (s : State) :
  parameters (setterFan p s) = parameters s /\
  pendingCfgParamSave (setterFan p s) = pendingCfgParamSave s /\
  temperature (setterFan p s) = temperature s /\
  sentTemperature (setterFan p s) = sentTemperature s /\
  humidity (setterFan p s) = humidity s /\
  sentHumidity (setterFan p s) = sentHumidity s /\
  (forall k, k <> EEPROM_ADDRESS -> eeprom (setterFan p s) k = eeprom s k) /\
  verifyChecksum (setterFan p s) = verifyChecksum s.
Proof.
  assert (forall k, k <> EEPROM_ADDRESS -> eeprom (setterFan p s) k = eeprom s k) as He.
  { intros k Hk. rewrite setterFan_eeprom.
    destruct (Z.eqb_spec k EEPROM_ADDRESS); [contradiction | reflexivity]. }
  unfold setterFan in *.
  pose proof (ram_fields _ _ (EEPROM_update_ram EEPROM_ADDRESS p
    (setSpeedRelays (convertSpeed p) (set_fanSpeed p s))))
    as (_ & _ & -> & -> & -> & -> & -> & -> & _).
  assert (forall v x, parameters (setSpeedRelays v x) = parameters x /\
            pendingCfgParamSave (setSpeedRelays v x) = pendingCfgParamSave x /\
            temperature (setSpeedRelays v x) = temperature x /\
            sentTemperature (setSpeedRelays v x) = sentTemperature x /\
            humidity (setSpeedRelays v x) = humidity x /\
            sentHumidity (setSpeedRelays v x) = sentHumidity x) as Hf.
  { intros v x. unfold setSpeedRelays. destruct (v <=? 5); repeat split. }
  destruct (Hf (convertSpeed p) (set_fanSpeed p s)) as (-> & -> & -> & -> & -> & ->).
  repeat split; try exact He.
  unfold verifyChecksum, EEPROM_read. rewrite !storedBlockSum_unfold.
  rewrite !He by discriminate. reflexivity.
Qed.

Lemma writes_within_app (P : Z -> Prop) (l1 l2 : list Event) :
  writes_within P l1 -> writes_within P l2 -> writes_within P (l1 ++ l2).
Proof. unfold writes_within. intros H1 H2. apply Forall_app. split; assumption. Qed.

Lemma EEPROM_update_within (P : Z -> Prop) (a v : Z) (s : State) :
  P a ->
  exists evs, trace (EEPROM_update a v s) = trace s ++ evs /\ writes_within P evs.
Proof.
  intros Ha. rewrite EEPROM_update_trace_exact.
  destruct (EEPROM_read a s =? v); eexists; (split; [reflexivity|]).
  - constructor.
  - repeat constructor. exact Ha.
Qed.

Lemma zunoSaveCFGParam_within (P : Z -> Prop) (q v : Z) (s : State) :
  P (cfgParamAddress q) -> P (cfgParamAddress q + 1) ->
  exists evs, trace (zunoSaveCFGParam q v s) = trace s ++ evs /\ writes_within P evs.
Proof.
  intros H0 H1. unfold zunoSaveCFGParam.
  destruct cfgHighByteFirst;
    match goal with |- context [EEPROM_update ?a1 ?v1 (EEPROM_update ?a0 ?v0 s)] =>
      destruct (EEPROM_update_within P a0 v0 s H0) as (l0 & E0 & F0);
      destruct (EEPROM_update_within P a1 v1 (EEPROM_update a0 v0 s) H1) as (l1 & E1 & F1)
    end;
    exists (l0 ++ l1); (split; [rewrite E1, E0, app_assoc; reflexivity |]);
    apply writes_within_app; assumption.
Qed.

Lemma saveParameters_within (s : State) :
  exists evs, trace (saveParameters s) = trace s ++ evs /\
              writes_within param_store_address evs.
Proof.
  assert (forall k, 8192 <= k < 8198 -> param_store_address k) as Hb.
  { intros k Hk. right. unfold PARAMETER_START_EEPROM_ADDRESS. lia. }
  rewrite saveParameters_steps.
  set (p0 := parameters s !!! 0%nat). set (p1 := parameters s !!! 1%nat).
  set (p2 := parameters s !!! 2%nat). set (c := paramChecksum (parameters s)).
  destruct (zunoSaveCFGParam_within param_store_address 64 p0 s) as (l0 & E0 & F0);
    [apply Hb; vm_compute; intuition discriminate
    |apply Hb; vm_compute; intuition discriminate|].
  set (s0 := zunoSaveCFGParam 64 p0 s) in *.
  destruct (zunoSaveCFGParam_within param_store_address 65 p1 s0) as (l1 & E1 & F1);
    [apply Hb; vm_compute; intuition discriminate
    |apply Hb; vm_compute; intuition discriminate|].
  set (s1 := zunoSaveCFGParam 65 p1 s0) in *.
  destruct (zunoSaveCFGParam_within param_store_address 66 p2 s1) as (l2 & E2 & F2);
    [apply Hb; vm_compute; intuition discriminate
    |apply Hb; vm_compute; intuition discriminate|].
  set (s2 := zunoSaveCFGParam 66 p2 s1) in *.
  destruct (EEPROM_update_within param_store_address CHECKSUM_ADDRESS c s2)
    as (l3 & E3 & F3); [left; reflexivity|].
  exists (l0 ++ l1 ++ l2 ++ l3). split.
  - rewrite E3, E2, E1, E0, <- !app_assoc. reflexivity.
  - repeat apply writes_within_app; assumption.
Qed.

(** X8: the footprint of [saveParameters].  Its only effects are EEPROM
    writes, all of them at the checksum byte or in the six bytes of the
    parameter block; every other cell, the persisted fan setting among them,
    keeps its content, and nothing outside the EEPROM changes. *)
Theorem saveParameters_footprint (s : State) :
  writes_within param_store_address (emitted s (saveParameters s)) /\
  (forall k, ~ param_store_address k -> eeprom (saveParameters s) k = eeprom s k) /\
  EEPROM_read EEPROM_ADDRESS (saveParameters s) = EEPROM_read EEPROM_ADDRESS s /\
  ram (saveParameters s) = ram s.
Proof.
  split; [|split; [|split]].
  - destruct (saveParameters_within s) as (evs & E & F).
    rewrite (emitted_app s _ evs E). exact F.
  - intros k Hk. rewrite saveParameters_eeprom.
    unfold param_store_address, CHECKSUM_ADDRESS, EEPROM_ADDRESS,
      PARAMETER_START_EEPROM_ADDRESS in Hk.
    repeat match goal with
           | |- context [if ?a =? ?b then _ else _] =>
               destruct (Z.eqb_spec a b); [exfalso; lia|]
           end.
    reflexivity.
  - unfold EEPROM_read. rewrite saveParameters_eeprom. reflexivity.
  - apply saveParameters_ram.
Qed.

Lemma zunoSaveCFGParam_noop (q v : Z) (s : State) :
  EEPROM_read (cfgParamAddress q) s = cfgFirstByte v ->
  EEPROM_read (cfgParamAddress q + 1) s = cfgSecondByte v ->
  zunoSaveCFGParam q v s = s.
Proof.
  unfold zunoSaveCFGParam, cfgFirstByte, cfgSecondByte.
  destruct cfgHighByteFirst; intros E0 E1;
    rewrite (EEPROM_update_noop _ _ s E0); apply EEPROM_update_noop; exact E1.
Qed.

(** X9: [saveParameters] is idempotent: saving again right after a save
    changes nothing and writes no EEPROM cell. *)
Theorem saveParameters_idempotent (s : State) :
  saveParameters (saveParameters s) = saveParameters s /\
  emitted (saveParameters s) (saveParameters (saveParameters s)) = [].
Proof.
  assert (saveParameters (saveParameters s) = saveParameters s) as E.
  { rewrite (saveParameters_steps (saveParameters s)).
    pose proof (ram_fields _ _ (saveParameters_ram s)) as (_ & _ & -> & _).
    set (s' := saveParameters s).
    assert (forall k, eeprom s' k = eeprom (saveParameters s) k) as Hk by reflexivity.
    rewrite (zunoSaveCFGParam_noop 64 _ s');
      [|unfold EEPROM_read; rewrite Hk, saveParameters_eeprom; reflexivity ..].
    rewrite (zunoSaveCFGParam_noop 65 _ s');
      [|unfold EEPROM_read; rewrite Hk, saveParameters_eeprom; reflexivity ..].
    rewrite (zunoSaveCFGParam_noop 66 _ s');
      [|unfold EEPROM_read; rewrite Hk, saveParameters_eeprom; reflexivity ..].
    apply EEPROM_update_noop.
    unfold EEPROM_read. rewrite Hk, saveParameters_eeprom. reflexivity. }
  split; [exact E|]. apply emitted_same. rewrite E. reflexivity.
Qed.

(** ** Round trips and the strength of the checksum *)

(** X10: saving and loading are inverse on well-formed states.  Loading what
    [saveParameters] stored gives the in-memory parameters back, and saving
    what [loadParameters] loaded leaves every byte of the parameter block as
    it was. *)
Theorem save_load_round_trip (s : State) :
  wf_state s ->
  parameters (loadParameters (saveParameters s)) = parameters s /\
  (forall k, k <> CHECKSUM_ADDRESS ->
     eeprom (saveParameters (loadParameters s)) k = eeprom s k).
Proof.
  intros [He Hp]. split; [apply loadParameters_saveParameters; exact Hp|].
  intros k Hk. rewrite saveParameters_eeprom.
  rewrite loadParameters_parameters by apply Hp.
  destruct (loadParameters_frame s) as (-> & _).
  change ([zunoLoadCFGParam 64 s; zunoLoadCFGParam 65 s; zunoLoadCFGParam 66 s] !!! 0%nat)
    with (zunoLoadCFGParam 64 s).
  change ([zunoLoadCFGParam 64 s; zunoLoadCFGParam 65 s; zunoLoadCFGParam 66 s] !!! 1%nat)
    with (zunoLoadCFGParam 65 s).
  change ([zunoLoadCFGParam 64 s; zunoLoadCFGParam 65 s; zunoLoadCFGParam 66 s] !!! 2%nat)
    with (zunoLoadCFGParam 66 s).
  destruct (zunoLoadCFGParam_bytes 64 s He) as [-> ->].
  destruct (zunoLoadCFGParam_bytes 65 s He) as [-> ->].
  destruct (zunoLoadCFGParam_bytes 66 s He) as [-> ->].
  unfold CHECKSUM_ADDRESS, EEPROM_ADDRESS in Hk.
  repeat match goal with
         | |- context [if ?a =? ?b then _ else _] =>
             destruct (Z.eqb_spec a b) as [->|?]; [first [exfalso; lia | reflexivity]|]
         end.
  reflexivity.
Qed.

Lemma storedBlockSum_flat (s : State) :
  storedBlockSum s =
    (eeprom s 8192 + eeprom s 8193 + eeprom s 8194 +
     eeprom s 8195 + eeprom s 8196 + eeprom s 8197) mod 256.
Proof.
  rewrite storedBlockSum_unfold.
  repeat (rewrite u8_add_l; rewrite <- ?Z.add_assoc).
  unfold u8. f_equal.
Qed.

Lemma mod256_cancel (A b x : Z) :
  is_u8 b -> is_u8 x -> (A + b) mod 256 = (A + x) mod 256 -> b = x.
Proof.
  unfold is_u8. intros Hb Hx E.
  pose proof (Z.div_mod (A + b) 256 ltac:(lia)) as D1.
  pose proof (Z.div_mod (A + x) 256 ltac:(lia)) as D2.
  rewrite E in D1. lia.
Qed.

(** X11: the checksum catches every single-byte corruption.  When the
    stored block verifies, replacing any one of its six bytes, or the
    checksum byte, by a different byte makes [verifyChecksum] fail. *)
Theorem verifyChecksum_detects_byte_change (s : State) (a b : Z) :
  wf_eeprom (eeprom s) ->
  verifyChecksum s = true ->
  param_store_address a ->
  is_u8 b -> b <> eeprom s a ->
  verifyChecksum (set_eeprom (upd (eeprom s) a b) s) = false.
Proof.
  intros He Hv Ha Hb Hne.
  apply verifyChecksum_true in Hv. apply verifyChecksum_false.
  unfold EEPROM_read in *. rewrite storedBlockSum_flat in *.
  change (eeprom (set_eeprom (upd (eeprom s) a b) s)) with (upd (eeprom s) a b).
  pose proof (He a) as Hx.
  unfold param_store_address, CHECKSUM_ADDRESS, EEPROM_ADDRESS,
    PARAMETER_START_EEPROM_ADDRESS in Ha.
  assert (a = 1 \/ a = 8192 \/ a = 8193 \/ a = 8194 \/ a = 8195 \/ a = 8196 \/ a = 8197)
    as Hc by lia.
  unfold CHECKSUM_ADDRESS, EEPROM_ADDRESS in *.
  change (0 + 1) with 1 in *.
  destruct Hc as [->|[->|[->|[->|[->|[->| ->]]]]]];
    unfold upd; cbn [Z.eqb Pos.eqb];
    intros E; apply Hne.
  - rewrite <- E. exact Hv.
  - apply (mod256_cancel (eeprom s 8193 + eeprom s 8194 + eeprom s 8195 +
                          eeprom s 8196 + eeprom s 8197)); try assumption.
    rewrite <- Hv in E.
    etransitivity; [|etransitivity; [exact E|]]; f_equal; lia.
  - apply (mod256_cancel (eeprom s 8192 + eeprom s 8194 + eeprom s 8195 +
                          eeprom s 8196 + eeprom s 8197)); try assumption.
    rewrite <- Hv in E.
    etransitivity; [|etransitivity; [exact E|]]; f_equal; lia.
  - apply (mod256_cancel (eeprom s 8192 + eeprom s 8193 + eeprom s 8195 +
                          eeprom s 8196 + eeprom s 8197)); try assumption.
    rewrite <- Hv in E.
    etransitivity; [|etransitivity; [exact E|]]; f_equal; lia.
  - apply (mod256_cancel (eeprom s 8192 + eeprom s 8193 + eeprom s 8194 +
                          eeprom s 8196 + eeprom s 8197)); try assumption.
    rewrite <- Hv in E.
    etransitivity; [|etransitivity; [exact E|]]; f_equal; lia.
  - apply (mod256_cancel (eeprom s 8192 + eeprom s 8193 + eeprom s 8194 +
                          eeprom s 8195 + eeprom s 8197)); try assumption.
    rewrite <- Hv in E.
    etransitivity; [|etransitivity; [exact E|]]; f_equal; lia.
  - apply (mod256_cancel (eeprom s 8192 + eeprom s 8193 + eeprom s 8194 +
                          eeprom s 8195 + eeprom s 8196)); try assumption.
    rewrite <- Hv in E.
    etransitivity; [|etransitivity; [exact E|]]; f_equal; lia.
Qed.

(** X12: the checksum does not see the order of the bytes.  Exchanging the
    contents of any two cells of the parameter block leaves the outcome of
    [verifyChecksum] unchanged, so a block whose values have been swapped
    is loaded as valid. *)
Theorem verifyChecksum_blind_to_swaps (s : State) (a b : Z) :
  PARAMETER_START_EEPROM_ADDRESS <= a < PARAMETER_START_EEPROM_ADDRESS + 6 ->
  PARAMETER_START_EEPROM_ADDRESS <= b < PARAMETER_START_EEPROM_ADDRESS + 6 ->
  verifyChecksum (set_eeprom (swap_cells (eeprom s) a b) s) = verifyChecksum s.
Proof.
  unfold PARAMETER_START_EEPROM_ADDRESS. intros Ha Hb.
  unfold verifyChecksum, EEPROM_read. rewrite !storedBlockSum_flat.
  change (eeprom (set_eeprom (swap_cells (eeprom s) a b) s))
    with (swap_cells (eeprom s) a b).
  assert (a = 8192 \/ a = 8193 \/ a = 8194 \/ a = 8195 \/ a = 8196 \/ a = 8197)
    as Hca by lia.
  assert (b = 8192 \/ b = 8193 \/ b = 8194 \/ b = 8195 \/ b = 8196 \/ b = 8197)
    as Hcb by lia.
  destruct Hca as [->|[->|[->|[->|[->| ->]]]]];
    destruct Hcb as [->|[->|[->|[->|[->| ->]]]]];
    unfold swap_cells, upd, CHECKSUM_ADDRESS, EEPROM_ADDRESS;
    change (0 + 1) with 1; cbn [Z.eqb Pos.eqb];
    f_equal; f_equal; lia.
Qed.

(** ** Boot and power cycles *)

Lemma setup_replay_trace (s : State) :
  exists evs, trace (setup_replay s) = trace s ++ evs /\ eeprom_writes evs = [].
Proof.
  unfold setup_replay.
  set (s1 := for_loop NUMBER_OF_RELAYS _ s).
  assert (exists l1, trace s1 = trace s ++ l1 /\ eeprom_writes l1 = []) as (l1 & E1 & W1).
  { eexists. split.
    - subst s1. cbn [for_loop NUMBER_OF_RELAYS seq fold_left digitalWrite pinMode
                     emit set_pinLevel trace].
      rewrite <- !app_assoc. reflexivity.
    - reflexivity. }
  clearbody s1.
  rewrite setterFan_trace, Z.eqb_refl, E1, app_nil_r, <- app_assoc.
  eexists. split; [reflexivity|].
  rewrite eeprom_writes_app, W1. reflexivity.
Qed.

Lemma boot_valid_no_writes (e : Z -> Z) :
  verifyChecksum (power_on e) = true -> eeprom_writes (trace (boot e)) = [].
Proof.
  intros Hv. rewrite (boot_valid e Hv).
  destruct (loadParameters_frame (setup_replay (power_on e))) as (_ & _ & _ & _ & ->).
  destruct (setup_replay_trace (power_on e)) as (evs & -> & W).
  exact W.
Qed.

Lemma boot_verifies (e : Z -> Z) : verifyChecksum (boot e) = true.
Proof.
  destruct (verifyChecksum (power_on e)) eqn:Hv.
  - rewrite <- Hv. apply verifyChecksum_ext.
    intros k. apply boot_valid_eeprom. exact Hv.
  - apply (boot_corrupt_resets_core e Hv).
Qed.

Lemma boot_eeprom_fan (e : Z -> Z) : eeprom (boot e) EEPROM_ADDRESS = e EEPROM_ADDRESS.
Proof.
  destruct (verifyChecksum (power_on e)) eqn:Hv.
  - apply boot_valid_eeprom. exact Hv.
  - rewrite (boot_corrupt e Hv), saveParameters_eeprom.
    change (EEPROM_ADDRESS =? 1) with false.
    change (EEPROM_ADDRESS =? 8197) with false.
    change (EEPROM_ADDRESS =? 8196) with false.
    change (EEPROM_ADDRESS =? 8195) with false.
    change (EEPROM_ADDRESS =? 8194) with false.
    change (EEPROM_ADDRESS =? 8193) with false.
    change (EEPROM_ADDRESS =? 8192) with false.
    cbv iota.
    destruct (setDefaultParameters_frame (setup_replay (power_on e))) as (-> & _).
    apply (setup_replay_eeprom (power_on e)).
Qed.

Lemma power_on_eeprom (e : Z -> Z) (k : Z) : eeprom (power_on e) k = e k.
Proof. reflexivity. Qed.

Lemma boot_fan (e : Z -> Z) :
  getterFan (boot e) = e EEPROM_ADDRESS /\
  relayOutputs (boot e) = map Some (relayRow (convertSpeed (e EEPROM_ADDRESS))).
Proof. unfold boot, getterFan. apply (setup_fan (power_on e)). Qed.

Lemma reboot_parameters (s : State) :
  verifyChecksum s = true ->
  parameters (reboot s) =
    [zunoLoadCFGParam 64 s; zunoLoadCFGParam 65 s; zunoLoadCFGParam 66 s].
Proof.
  intros Hv. unfold reboot.
  assert (verifyChecksum (power_on (eeprom s)) = true) as Hv'.
  { rewrite <- Hv. apply verifyChecksum_ext. reflexivity. }
  rewrite (boot_valid_parameters _ Hv').
  rewrite !(zunoLoadCFGParam_ext _ s (power_on (eeprom s))) by reflexivity.
  reflexivity.
Qed.

(** X13: boot on a valid EEPROM only reads it.  When the stored checksum
    matches the stored block, boot writes no EEPROM cell, leaves every cell
    as it was, takes the parameters from the block and leaves no save
    pending. *)
Theorem boot_valid_is_read_only (e : Z -> Z) :
  verifyChecksum (power_on e) = true ->
  eeprom_writes (trace (boot e)) = [] /\
  (forall k, eeprom (boot e) k = e k) /\
  parameters (boot e) =
    [zunoLoadCFGParam 64 (power_on e); zunoLoadCFGParam 65 (power_on e);
     zunoLoadCFGParam 66 (power_on e)] /\
  pendingCfgParamSave (boot e) = false.
Proof.
  intros Hv.
  split; [apply boot_valid_no_writes; exact Hv|].
  split; [intros k; apply boot_valid_eeprom; exact Hv|].
  split; [apply boot_valid_parameters; exact Hv|].
  rewrite (boot_valid e Hv).
  destruct (loadParameters_frame (setup_replay (power_on e))) as (_ & _ & _ & -> & _).
  apply (setup_replay_frame (power_on e)).
Qed.

(** X14: a saved parameter change survives a power cycle.  After an in-range
    parameter change and the next iteration of [loop], a reboot comes up
    with the changed parameters (the read interval raised to 30 where the
    handler raised it), whether or not the host had stored the event's
    value before the iteration. *)
Theorem parameter_change_survives_reboot (q v now t h : Z) (s : State) :
  64 <= q <= 66 -> is_u16 v -> wf_params (parameters s) ->
  parameters (reboot (loop now t h (configParameterChanged q v s))) =
    parameters (configParameterChanged q v s) /\
  parameters (reboot (loop now t h
                (hostStoreCfgParam q v (configParameterChanged q v s)))) =
    parameters (configParameterChanged q v s).
Proof.
  intros Hq Hv Hwf.
  set (s1 := configParameterChanged q v s).
  assert (pendingCfgParamSave s1 = true /\ wf_params (parameters s1)) as (Eb & Hwf1).
  { subst s1. rewrite configParameterChanged_in_range by exact Hq.
    split; [reflexivity|].
    change (parameters (set_pendingCfgParamSave true (set_parameters ?ps s))) with ps.
    apply wf_params_insert; [exact Hwf|].
    destruct ((q =? 66) && (v <? READ_INTERVAL_MIN)); [|exact Hv].
    unfold is_u16, READ_INTERVAL_MIN. lia. }
  assert (forall x, pendingCfgParamSave x = true -> parameters x = parameters s1 ->
                    parameters (reboot (loop now t h x)) = parameters s1) as H.
  { intros x Hb Hp.
    assert (wf_params (parameters x)) as Hwx by (rewrite Hp; exact Hwf1).
    destruct (loop_saves now t h x Hb Hwx) as (L1 & _ & L3 & _ & L5).
    rewrite (reboot_parameters _ L5).
    rewrite <- loadParameters_parameters by (rewrite L1; apply Hwx).
    rewrite L3. exact Hp. }
  split; [apply H; [exact Eb | reflexivity]|].
  pose proof (ram_fields _ _ (zunoSaveCFGParam_ram q v s1)) as (_ & _ & Ep' & Eb' & _).
  apply H; unfold hostStoreCfgParam; [rewrite Eb'; exact Eb | exact Ep'].
Qed.

(** X15: booting twice is booting once.  Whatever the EEPROM holds at the
    first boot, a second power cycle right after it writes no EEPROM cell
    and comes up with the same parameters, the same fan speed and the same
    relay outputs. *)
Theorem reboot_after_boot_is_stable (e : Z -> Z) :
  eeprom_writes (trace (reboot (boot e))) = [] /\
  (forall k, eeprom (reboot (boot e)) k = eeprom (boot e) k) /\
  parameters (reboot (boot e)) = parameters (boot e) /\
  getterFan (reboot (boot e)) = getterFan (boot e) /\
  relayOutputs (reboot (boot e)) = relayOutputs (boot e).
Proof.
  pose proof (boot_verifies e) as Hv.
  assert (verifyChecksum (power_on (eeprom (boot e))) = true) as Hv'.
  { rewrite <- Hv. apply verifyChecksum_ext. intros k. apply power_on_eeprom. }
  split; [apply boot_valid_no_writes; exact Hv'|].
  split; [intros k; apply (boot_valid_eeprom (eeprom (boot e))); exact Hv'|].
  split.
  { rewrite (reboot_parameters _ Hv).
    destruct (verifyChecksum (power_on e)) eqn:Hv0.
    - rewrite (boot_valid_parameters e Hv0).
      rewrite !(zunoLoadCFGParam_ext _ (power_on e) (boot e))
        by (intros k; apply boot_valid_eeprom; exact Hv0).
      reflexivity.
    - destruct (boot_corrupt_resets_core e Hv0) as (Ep & El & _).
      rewrite <- loadParameters_parameters by (rewrite Ep; reflexivity).
      rewrite El, Ep. reflexivity. }
  unfold reboot.
  destruct (boot_fan (eeprom (boot e))) as (-> & ->).
  destruct (boot_fan e) as (-> & ->).
  rewrite boot_eeprom_fan. split; reflexivity.
Qed.

(** ** Invariants of the fan state *)

Lemma setterFan_spare (p : Z) (s : State) :
  pinLevel (setterFan p s) 15 = pinLevel s 15.
Proof.
  unfold setterFan.
  pose proof (ram_fields _ _ (EEPROM_update_ram EEPROM_ADDRESS p
    (setSpeedRelays (convertSpeed p) (set_fanSpeed p s)))) as (-> & _).
  rewrite setSpeedRelays_pinLevel by apply convertSpeed_range. reflexivity.
Qed.

Lemma setup_replay_spare (s : State) : pinLevel (setup_replay s) 15 = Some HIGH.
Proof.
  unfold setup_replay. rewrite setterFan_spare. reflexivity.
Qed.

Lemma boot_spare (e : Z -> Z) : pinLevel (boot e) 15 = Some HIGH.
Proof.
  unfold boot. rewrite setup_branches. destruct (verifyChecksum (power_on e)).
  - destruct (loadParameters_frame (setup_replay (power_on e))) as (_ & -> & _).
    apply setup_replay_spare.
  - pose proof (ram_fields _ _ (saveParameters_ram
      (setDefaultParameters (setup_replay (power_on e))))) as (-> & _).
    destruct (setDefaultParameters_frame (setup_replay (power_on e))) as (_ & -> & _).
    apply setup_replay_spare.
Qed.

Lemma loop_frame (now t h : Z) (s : State) :
  pinLevel (loop now t h s) = pinLevel s /\
  fanSpeed (loop now t h s) = fanSpeed s /\
  parameters (loop now t h s) = parameters s /\
  EEPROM_read EEPROM_ADDRESS (loop now t h s) = EEPROM_read EEPROM_ADDRESS s.
Proof.
  rewrite loop_steps.
  destruct (loop_poll_frame now t h s) as (Ee & Epl & Efs & Eps & _).
  set (sp := loop_poll now t h s) in *. clearbody sp.
  destruct (pendingCfgParamSave s).
  - pose proof (ram_fields _ _ (saveParameters_ram sp)) as (R1 & R2 & R3 & _).
    change (pinLevel (set_pendingCfgParamSave false ?x)) with (pinLevel x).
    change (fanSpeed (set_pendingCfgParamSave false ?x)) with (fanSpeed x).
    change (parameters (set_pendingCfgParamSave false ?x)) with (parameters x).
    change (EEPROM_read EEPROM_ADDRESS (set_pendingCfgParamSave false ?x))
      with (eeprom x EEPROM_ADDRESS).
    rewrite R1, R2, R3, saveParameters_eeprom, Epl, Efs, Eps.
    unfold EEPROM_read. rewrite <- Ee. repeat split.
  - unfold EEPROM_read. rewrite Ee, Epl, Efs, Eps. repeat split.
Qed.

Lemma configParameterChanged_frame (q v : Z) (s : State) :
  eeprom (configParameterChanged q v s) = eeprom s /\
  pinLevel (configParameterChanged q v s) = pinLevel s /\
  fanSpeed (configParameterChanged q v s) = fanSpeed s /\
  trace (configParameterChanged q v s) = trace s.
Proof.
  unfold configParameterChanged.
  destruct (u8 (q - PARAMETER_FIRST_NUMBER) >=? Z.of_nat PARAM_MAX); repeat split.
Qed.

Lemma hostStoreCfgParam_frame (q v : Z) (s : State) :
  is_u8 q ->
  EEPROM_read EEPROM_ADDRESS (hostStoreCfgParam q v s) = EEPROM_read EEPROM_ADDRESS s /\
  pinLevel (hostStoreCfgParam q v s) = pinLevel s /\
  fanSpeed (hostStoreCfgParam q v s) = fanSpeed s.
Proof.
  intros Hq. unfold hostStoreCfgParam.
  pose proof (ram_fields _ _ (zunoSaveCFGParam_ram q v s)) as (-> & -> & _).
  split; [|split; reflexivity].
  unfold EEPROM_read. rewrite zunoSaveCFGParam_eeprom.
  pose proof (cfgParamAddress_high q Hq) as Ha.
  destruct (Z.eqb_spec EEPROM_ADDRESS (cfgParamAddress q + 1)) as [E|_];
    [unfold EEPROM_ADDRESS in E; lia|].
  destruct (Z.eqb_spec EEPROM_ADDRESS (cfgParamAddress q)) as [E|_];
    [unfold EEPROM_ADDRESS in E; lia|].
  reflexivity.
Qed.

Lemma getterFan_eq (s : State) : getterFan s = fanSpeed s.
Proof. reflexivity. Qed.

Lemma fan_consistent_boot (e : Z -> Z) :
  EEPROM_read EEPROM_ADDRESS (boot e) = fanSpeed (boot e) /\
  relayOutputs (boot e) = map Some (relayRow (convertSpeed (fanSpeed (boot e)))).
Proof.
  destruct (boot_fan e) as (Ef & Er). rewrite getterFan_eq in Ef.
  unfold EEPROM_read. rewrite boot_eeprom_fan, Ef, Er. split; reflexivity.
Qed.

Lemma fan_consistent_step (s s' : State) :
  Step s s' ->
  EEPROM_read EEPROM_ADDRESS s = fanSpeed s /\
  relayOutputs s = map Some (relayRow (convertSpeed (fanSpeed s))) /\
  pinLevel s 15 = Some HIGH ->
  EEPROM_read EEPROM_ADDRESS s' = fanSpeed s' /\
  relayOutputs s' = map Some (relayRow (convertSpeed (fanSpeed s'))) /\
  pinLevel s' 15 = Some HIGH.
Proof.
  intros Hst (He & Hr & Hs).
  destruct Hst as [p s Hp|q v s Hq Hv|q v s Hq Hv|now t h s|s].
  - destruct (setterFan_frame p s) as (-> & _).
    unfold EEPROM_read. rewrite setterFan_eeprom, setterFan_outputs, setterFan_spare.
    repeat split. exact Hs.
  - destruct (configParameterChanged_frame q v s) as (Ee & Epl & -> & _).
    unfold EEPROM_read. rewrite Ee, Epl, (relayOutputs_ext s _ Epl).
    repeat split; assumption.
  - destruct (hostStoreCfgParam_frame q v s Hq) as (-> & Epl & ->).
    rewrite Epl, (relayOutputs_ext s _ Epl). repeat split; assumption.
  - destruct (loop_frame now t h s) as (Epl & -> & _ & ->).
    rewrite Epl, (relayOutputs_ext s _ Epl). repeat split; assumption.
  - unfold reboot. destruct (fan_consistent_boot (eeprom s)) as (E1 & E2).
    split; [exact E1|]. split; [exact E2|]. apply boot_spare.
Qed.

Lemma fan_consistent_reachable (s : State) :
  Reachable s ->
  EEPROM_read EEPROM_ADDRESS s = fanSpeed s /\
  relayOutputs s = map Some (relayRow (convertSpeed (fanSpeed s))) /\
  pinLevel s 15 = Some HIGH.
Proof.
  induction 1 as [e He|s s' _ IH Hst].
  - destruct (fan_consistent_boot e) as (E1 & E2).
    split; [exact E1|]. split; [exact E2|]. apply boot_spare.
  - apply (fan_consistent_step s); assumption.
Qed.

(** X16: the fan state is consistent in every reachable state.  The speed
    [getterFan] returns is a byte, it is the byte persisted at
    [EEPROM_ADDRESS], and the five relays show the table row of its
    conversion; no parameter event, loop iteration or power cycle breaks
    this. *)
Theorem fan_state_consistent (s : State) :
  Reachable s ->
  getterFan s = EEPROM_read EEPROM_ADDRESS s /\
  is_u8 (getterFan s) /\
  relayOutputs s = map Some (relayRow (convertSpeed (getterFan s))).
Proof.
  intros Hr. destruct (fan_consistent_reachable s Hr) as (E1 & E2 & _).
  rewrite getterFan_eq. split; [symmetry; exact E1|]. split; [|exact E2].
  rewrite <- E1. apply (wf_state_reachable s Hr).
Qed.

(** ** What never drives a relay *)

Lemma written_pins_never_low (pin : Z) (evs : list Event) :
  written_pins evs = [] -> never_drives_low pin evs.
Proof.
  unfold never_drives_low. induction evs as [|ev evs IH]; [constructor|].
  destruct ev; cbn; intros H'; try discriminate H';
    (constructor; [intros E; discriminate E | apply IH; exact H']).
Qed.

Lemma writes_within_no_pins (P : Z -> Prop) (evs : list Event) :
  writes_within P evs -> written_pins evs = [] /\ reported_channels evs = [].
Proof.
  induction 1 as [|ev evs Hev _ IH]; [split; reflexivity|].
  destruct ev; cbn in Hev; try contradiction. exact IH.
Qed.

Lemma eeprom_events_no_pins (evs : list Event) :
  Forall is_eeprom_write evs -> written_pins evs = [].
Proof.
  induction 1 as [|ev evs Hev _ IH]; [reflexivity|].
  destruct ev; cbn in Hev; try contradiction. exact IH.
Qed.

Lemma never_drives_low_app (pin : Z) (l1 l2 : list Event) :
  never_drives_low pin l1 -> never_drives_low pin l2 ->
  never_drives_low pin (l1 ++ l2).
Proof. unfold never_drives_low. intros H1 H2. apply Forall_app. split; assumption. Qed.

Lemma loop_trace (now t h : Z) (s : State) :
  exists evs, trace (loop now t h s) = trace s ++ evs /\ written_pins evs = [].
Proof.
  rewrite loop_steps.
  assert (exists l1, trace (loop_poll now t h s) = trace s ++ l1 /\ written_pins l1 = [])
    as (l1 & E1 & W1).
  { destruct (poll_due now s) eqn:Hd.
    - destruct (loop_poll_due now t h s Hd) as (Et & _). cbv zeta in Et.
      eexists. split; [exact Et|].
      destruct (exceeds t _ _), (exceeds h _ _); reflexivity.
    - rewrite (loop_poll_idle now t h s Hd). exists [].
      split; [symmetry; apply app_nil_r | reflexivity]. }
  destruct (pendingCfgParamSave s).
  - destruct (saveParameters_within (loop_poll now t h s)) as (l2 & E2 & W2).
    exists (l1 ++ l2). split.
    + change (trace (set_pendingCfgParamSave false ?x)) with (trace x).
      rewrite E2, E1, app_assoc. reflexivity.
    + rewrite written_pins_app, W1. apply (writes_within_no_pins _ _ W2).
  - exists l1. split; assumption.
Qed.

Lemma setterFan_never_low_spare (p : Z) (s : State) :
  exists evs, trace (setterFan p s) = trace s ++ evs /\ never_drives_low 15 evs.
Proof.
  eexists. split; [apply setterFan_trace|].
  apply never_drives_low_app.
  - repeat constructor; intros E; discriminate E.
  - destruct (EEPROM_read EEPROM_ADDRESS s =? p); repeat constructor.
    intros E; discriminate E.
Qed.

Lemma setup_replay_never_low_spare (s : State) :
  exists evs, trace (setup_replay s) = trace s ++ evs /\ never_drives_low 15 evs.
Proof.
  unfold setup_replay.
  set (s1 := for_loop NUMBER_OF_RELAYS _ s).
  assert (exists l1, trace s1 = trace s ++ l1 /\ never_drives_low 15 l1)
    as (l1 & E1 & W1).
  { eexists. split.
    - subst s1. cbn [for_loop NUMBER_OF_RELAYS seq fold_left digitalWrite pinMode
                     emit set_pinLevel trace].
      rewrite <- !app_assoc. reflexivity.
    - repeat constructor; intros E; discriminate E. }
  clearbody s1.
  destruct (setterFan_never_low_spare (EEPROM_read EEPROM_ADDRESS s1) s1)
    as (l2 & E2 & W2).
  exists (l1 ++ l2). split.
  - rewrite E2, E1, app_assoc. reflexivity.
  - apply never_drives_low_app; assumption.
Qed.

Lemma setDefaultParameters_trace (s : State) :
  trace (setDefaultParameters s) = trace s.
Proof. reflexivity. Qed.

Lemma boot_never_low_spare (e : Z -> Z) : never_drives_low 15 (trace (boot e)).
Proof.
  unfold boot. rewrite setup_branches.
  destruct (setup_replay_never_low_spare (power_on e)) as (l1 & E1 & W1).
  change (trace (power_on e) ++ l1) with l1 in E1.
  destruct (verifyChecksum (power_on e)).
  - destruct (loadParameters_frame (setup_replay (power_on e))) as (_ & _ & _ & _ & ->).
    rewrite E1. exact W1.
  - destruct (saveParameters_within (setDefaultParameters (setup_replay (power_on e))))
      as (l2 & E2 & W2).
    rewrite E2, setDefaultParameters_trace, E1.
    apply never_drives_low_app; [exact W1|].
    apply written_pins_never_low. apply (writes_within_no_pins _ _ W2).
Qed.

Lemma step_never_low_spare (s s' : State) :
  Step s s' -> never_drives_low 15 (trace s) -> never_drives_low 15 (trace s').
Proof.
  intros Hst Hs.
  destruct Hst as [p s Hp|q v s Hq Hv|q v s Hq Hv|now t h s|s].
  - destruct (setterFan_never_low_spare p s) as (evs & -> & W).
    apply never_drives_low_app; assumption.
  - destruct (configParameterChanged_frame q v s) as (_ & _ & _ & ->). exact Hs.
  - unfold hostStoreCfgParam.
    destruct (zunoSaveCFGParam_trace q v s) as (evs & -> & W).
    apply never_drives_low_app; [exact Hs|].
    apply written_pins_never_low, eeprom_events_no_pins. exact W.
  - destruct (loop_trace now t h s) as (evs & -> & W).
    apply never_drives_low_app; [exact Hs|].
    apply written_pins_never_low. exact W.
  - apply boot_never_low_spare.
Qed.

(** X17: the spare relay is never energised.  In every reachable state the
    sixth relay pin is at HIGH, where boot put it, and since the last
    power-up no event has driven it LOW. *)
Theorem spare_relay_never_energised (s : State) :
  Reachable s ->
  pinLevel s (RELAY_PIN !!! 5%nat) = Some HIGH /\
  never_drives_low (RELAY_PIN !!! 5%nat) (trace s).
Proof.
  intros Hr. split; [apply (fan_consistent_reachable s Hr)|].
  change (RELAY_PIN !!! 5%nat) with 15.
  induction Hr as [e He|s s' _ IH Hst].
  - apply boot_never_low_spare.
  - apply (step_never_low_spare s); assumption.
Qed.

(** X18: [loop] never touches the fan.  An iteration writes no pin, leaves
    every pin level, the fan speed and the persisted fan setting as they
    were, and always ends with no save pending; when no poll is due and no
    save is pending it changes nothing at all. *)
Theorem loop_never_touches_fan (now t h : Z) (s : State) :
  written_pins (emitted s (loop now t h s)) = [] /\
  pinLevel (loop now t h s) = pinLevel s /\
  getterFan (loop now t h s) = getterFan s /\
  EEPROM_read EEPROM_ADDRESS (loop now t h s) = EEPROM_read EEPROM_ADDRESS s /\
  pendingCfgParamSave (loop now t h s) = false /\
  (poll_due now s = false -> pendingCfgParamSave s = false -> loop now t h s = s).
Proof.
  destruct (loop_trace now t h s) as (evs & E & W).
  destruct (loop_frame now t h s) as (Epl & Efs & _ & Ee).
  split; [rewrite (emitted_app s _ evs E); exact W|].
  split; [exact Epl|]. split; [rewrite !getterFan_eq; exact Efs|].
  split; [exact Ee|]. split.
  - rewrite loop_steps. destruct (pendingCfgParamSave s) eqn:Hb; [reflexivity|].
    destruct (loop_poll_frame now t h s) as (_ & _ & _ & _ & ->). exact Hb.
  - intros Hd Hb. rewrite loop_steps, Hb. apply loop_poll_idle. exact Hd.
Qed.

(** ** Hysteresis over successive polls *)

Lemma exceeds_false (reading sent threshold : Z) :
  -32768 <= reading - sent < 32768 ->
  (exceeds reading sent threshold = false <-> Z.abs (reading - sent) < threshold).
Proof.
  intros Hd. rewrite (exceeds_fits _ _ _ Hd).
  destruct (Z.geb_spec (Z.abs (reading - sent)) threshold); split;
    intros H'; try reflexivity; try discriminate H'; lia.
Qed.

(** X19: after a poll the last reported value is close to the reading.
    With a positive hysteresis parameter, and a reading whose difference
    from the last reported value fits the 16-bit [int] of the target, at the
    end of an iteration in which the poll was due the last reported
    temperature differs from the current temperature by less than the
    parameter, and likewise for the humidity; with the parameter at 0 every
    due poll reports, whatever the reading. *)
Theorem last_report_tracks_reading (now t h : Z) (s : State) :
  poll_due now s = true ->
  (0 < parameters s !!! PARAM_TEMP_HYSTERESIS ->
   -32768 <= t - sentTemperature s < 32768 ->
   Z.abs (temperature (loop now t h s) - sentTemperature (loop now t h s))
     < parameters s !!! PARAM_TEMP_HYSTERESIS) /\
  (0 < parameters s !!! PARAM_HUM_HYSTERESIS ->
   -32768 <= h - sentHumidity s < 32768 ->
   Z.abs (humidity (loop now t h s) - sentHumidity (loop now t h s))
     < parameters s !!! PARAM_HUM_HYSTERESIS) /\
  (parameters s !!! PARAM_TEMP_HYSTERESIS = 0 ->
   CH_TEMP ∈ reported_channels (emitted s (loop now t h s))) /\
  (parameters s !!! PARAM_HUM_HYSTERESIS = 0 ->
   CH_HUM ∈ reported_channels (emitted s (loop now t h s))).
Proof.
  intros Hd.
  destruct (loop_sent now t h s Hd) as (-> & -> & -> & ->).
  rewrite (loop_reported now t h s Hd).
  destruct (report_list_membership
              (exceeds t (sentTemperature s) (parameters s !!! PARAM_TEMP_HYSTERESIS))
              (exceeds h (sentHumidity s) (parameters s !!! PARAM_HUM_HYSTERESIS)))
    as (MT & MH).
  rewrite MT, MH.
  split; [|split; [|split]].
  - intros Hp Hf. destruct (exceeds t _ _) eqn:E.
    + rewrite Z.sub_diag. cbn. exact Hp.
    + apply (exceeds_false _ _ _ Hf). exact E.
  - intros Hp Hf. destruct (exceeds h _ _) eqn:E.
    + rewrite Z.sub_diag. cbn. exact Hp.
    + apply (exceeds_false _ _ _ Hf). exact E.
  - intros ->. apply exceeds_zero.
  - intros ->. apply exceeds_zero.
Qed.

(** X20: an unchanged reading is not reported twice.  When a poll has just
    been done with temperature [t], the next due poll with the same
    temperature sends no temperature report, provided the hysteresis
    parameter is positive; likewise for the humidity. *)
Theorem no_repeated_report (now now' t h t' h' : Z) (s : State) :
  poll_due now s = true ->
  poll_due now' (loop now t h s) = true ->
  (0 < parameters s !!! PARAM_TEMP_HYSTERESIS ->
   CH_TEMP ∉ reported_channels
               (emitted (loop now t h s) (loop now' t h' (loop now t h s)))) /\
  (0 < parameters s !!! PARAM_HUM_HYSTERESIS ->
   CH_HUM ∉ reported_channels
              (emitted (loop now t h s) (loop now' t' h (loop now t h s)))).
Proof.
  intros Hd Hd'.
  destruct (loop_sent now t h s Hd) as (_ & _ & Est & Esh).
  destruct (loop_frame now t h s) as (_ & _ & Ep & _).
  assert (forall x y, poll_due now' (loop now t h s) = true ->
            reported_channels (emitted (loop now t h s) (loop now' x y (loop now t h s))) =
            (if exceeds x (sentTemperature (loop now t h s))
                        (parameters s !!! PARAM_TEMP_HYSTERESIS)
             then [CH_TEMP] else []) ++
            (if exceeds y (sentHumidity (loop now t h s))
                        (parameters s !!! PARAM_HUM_HYSTERESIS)
             then [CH_HUM] else [])) as Hrep.
  { intros x y Hx. rewrite (loop_reported now' x y _ Hx), Ep. reflexivity. }
  split; intros Hp.
  - rewrite (Hrep t h' Hd').
    destruct (report_list_membership
                (exceeds t (sentTemperature (loop now t h s))
                         (parameters s !!! PARAM_TEMP_HYSTERESIS))
                (exceeds h' (sentHumidity (loop now t h s))
                         (parameters s !!! PARAM_HUM_HYSTERESIS))) as (MT & _).
    rewrite MT, Est. intros E.
    destruct (exceeds t (sentTemperature s) _) eqn:E0.
    + rewrite (exceeds_same t _ Hp) in E. discriminate E.
    + rewrite E0 in E. discriminate E.
  - rewrite (Hrep t' h Hd').
    destruct (report_list_membership
                (exceeds t' (sentTemperature (loop now t h s))
                         (parameters s !!! PARAM_TEMP_HYSTERESIS))
                (exceeds h (sentHumidity (loop now t h s))
                         (parameters s !!! PARAM_HUM_HYSTERESIS))) as (_ & MH).
    rewrite MH, Esh. intros E.
    destruct (exceeds h (sentHumidity s) _) eqn:E0.
    + rewrite (exceeds_same h _ Hp) in E. discriminate E.
    + rewrite E0 in E. discriminate E.
Qed.

(** ** The poll timer *)

(** X21: the poll timer.  When the millisecond counter has advanced by [d]
    (less than 2^32) since the last poll, whether or not it wrapped, the
    poll is due exactly when [d] has reached the read interval times 1000
    taken modulo 65536.  Read intervals up to 65 are therefore honoured to
    the millisecond, while no interval can delay the poll beyond 65536 ms.
    A due poll restarts the timer at the current counter, and an iteration
    without poll leaves it alone. *)
Theorem poll_timer_wraps (d now t h : Z) (s : State) :
  is_u32 (lastMillis s) -> 0 <= d < 4294967296 ->
  poll_due (u32 (lastMillis s + d)) s =
    (d >=? (parameters s !!! PARAM_READ_INTERVAL * 1000) mod 65536) /\
  (0 <= parameters s !!! PARAM_READ_INTERVAL <= 65 ->
   poll_due (u32 (lastMillis s + d)) s =
     (d >=? parameters s !!! PARAM_READ_INTERVAL * 1000)) /\
  (65536 <= d -> poll_due (u32 (lastMillis s + d)) s = true) /\
  lastMillis (loop now t h s) = (if poll_due now s then now else lastMillis s).
Proof.
  unfold is_u32. intros Hl Hd.
  assert (poll_due (u32 (lastMillis s + d)) s =
          (d >=? (parameters s !!! PARAM_READ_INTERVAL * 1000) mod 65536)) as E.
  { unfold poll_due. f_equal. unfold u32.
    rewrite Zminus_mod_idemp_l.
    replace (lastMillis s + d - lastMillis s) with d by lia.
    apply Z.mod_small. exact Hd. }
  split; [exact E|]. split; [|split].
  - intros Hp. rewrite E. rewrite Z.mod_small by lia. reflexivity.
  - intros Hb. rewrite E.
    pose proof (Z.mod_pos_bound (parameters s !!! PARAM_READ_INTERVAL * 1000) 65536
                  ltac:(lia)) as Hm.
    destruct (Z.geb_spec d ((parameters s !!! PARAM_READ_INTERVAL * 1000) mod 65536));
      [reflexivity | lia].
  - rewrite loop_steps.
    assert (lastMillis (loop_poll now t h s) =
            (if poll_due now s then now else lastMillis s)) as El.
    { destruct (poll_due now s) eqn:Hp.
      - apply (loop_poll_due now t h s Hp).
      - rewrite (loop_poll_idle now t h s Hp). reflexivity. }
    destruct (pendingCfgParamSave s); [|exact El].
    pose proof (ram_fields _ _ (saveParameters_ram (loop_poll now t h s)))
      as (_ & _ & _ & _ & _ & _ & _ & _ & R).
    change (lastMillis (set_pendingCfgParamSave false ?x)) with (lastMillis x).
    rewrite R. exact El.
Qed.

(** ** Sensor getters *)

(** X22: the sensor getters return the two's complement of the signed
    values.  For an [int16_t] temperature the getter's [uint16_t] result
    decodes back to it: it is the value itself when non-negative and the
    value plus 65536 when negative; after a due poll it encodes the reading
    just taken.  The same holds for the humidity getter. *)
Theorem sensor_getters_encode (now t h : Z) (s : State) :
  -32768 <= temperature s < 32768 -> -32768 <= humidity s < 32768 ->
  (is_u16 (getterTemperature s) /\
   wrap_i16 (getterTemperature s) = temperature s /\
   getterTemperature s =
     (if temperature s <? 0 then temperature s + 65536 else temperature s)) /\
  (is_u16 (getterHumidity s) /\
   wrap_i16 (getterHumidity s) = humidity s /\
   getterHumidity s =
     (if humidity s <? 0 then humidity s + 65536 else humidity s)) /\
  (poll_due now s = true ->
   getterTemperature (loop now t h s) = u16 t /\
   getterHumidity (loop now t h s) = u16 h).
Proof.
  intros Ht Hh.
  assert (forall x, -32768 <= x < 32768 ->
            is_u16 (u16 x) /\ wrap_i16 (u16 x) = x /\
            u16 x = (if x <? 0 then x + 65536 else x)) as H.
  { intros x Hx. split; [apply u16_range|].
    assert (u16 x = (if x <? 0 then x + 65536 else x)) as E.
    { unfold u16. destruct (Z.ltb_spec x 0).
      - symmetry. apply Z.mod_unique with (-1); lia.
      - apply Z.mod_small. lia. }
    split; [|exact E]. rewrite E. unfold wrap_i16.
    destruct (Z.ltb_spec x 0).
    + replace (x + 65536 + 32768) with (x + 32768 + 1 * 65536) by lia.
      rewrite Z.mod_add by lia. rewrite Z.mod_small by lia. lia.
    + rewrite Z.mod_small by lia. lia. }
  split; [apply (H (temperature s) Ht)|].
  split; [apply (H (humidity s) Hh)|].
  intros Hd. destruct (loop_sent now t h s Hd) as (E1 & E2 & _).
  unfold getterTemperature, getterHumidity. rewrite E1, E2. split; reflexivity.
Qed.

(** ** The floor of the read interval *)

(** X23: the handler never lets the read interval fall below its minimum.
    If the in-memory read interval is at least 30, it is still at least 30
    after a parameter change event, whatever the parameter number and the
    value. *)
Theorem read_interval_floor_kept (q v : Z) (s : State) :
  is_u8 q -> wf_params (parameters s) ->
  READ_INTERVAL_MIN <= parameters s !!! PARAM_READ_INTERVAL ->
  READ_INTERVAL_MIN <= parameters (configParameterChanged q v s) !!! PARAM_READ_INTERVAL.
Proof.
  intros Hq [Hl _] Hf.
  destruct (Z_le_gt_dec 64 q) as [H1|H1]; [destruct (Z_le_gt_dec q 66) as [H2|H2]|].
  - rewrite configParameterChanged_in_range by lia.
    change (parameters (set_pendingCfgParamSave true (set_parameters ?ps s))) with ps.
    assert (q = 64 \/ q = 65 \/ q = 66) as [->|[->| ->]] by lia.
    + rewrite list_lookup_total_insert_ne by (vm_compute; discriminate). exact Hf.
    + rewrite list_lookup_total_insert_ne by (vm_compute; discriminate). exact Hf.
    + rewrite list_lookup_total_insert_eq by (rewrite Hl; vm_compute; lia).
      change (66 =? 66) with true. cbn [andb].
      destruct (Z.ltb_spec v READ_INTERVAL_MIN); lia.
  - rewrite configParameterChanged_dropped by (try assumption; lia). exact Hf.
  - rewrite configParameterChanged_dropped by (try assumption; lia). exact Hf.
Qed.

(** ** Power loss between a parameter change and its save *)

Lemma mod256_add_cancel_iff (A x y : Z) :
  (A + x) mod 256 = (A + y) mod 256 <-> x mod 256 = y mod 256.
Proof.
  pose proof (Z.div_mod (A + x) 256 ltac:(lia)) as D1.
  pose proof (Z.div_mod (A + y) 256 ltac:(lia)) as D2.
  pose proof (Z.div_mod x 256 ltac:(lia)) as D3.
  pose proof (Z.div_mod y 256 ltac:(lia)) as D4.
  pose proof (Z.mod_pos_bound (A + x) 256 ltac:(lia)).
  pose proof (Z.mod_pos_bound (A + y) 256 ltac:(lia)).
  pose proof (Z.mod_pos_bound x 256 ltac:(lia)).
  pose proof (Z.mod_pos_bound y 256 ltac:(lia)).
  split; intros E; lia.
Qed.

Lemma cfg_bytes_add (w : Z) : cfgFirstByte w + cfgSecondByte w = highByte w + lowByte w.
Proof. unfold cfgFirstByte, cfgSecondByte. destruct cfgHighByteFirst; lia. Qed.

Lemma hostStore_after_change_eeprom (q v : Z) (s : State) (k : Z) :
  eeprom (hostStoreCfgParam q v (configParameterChanged q v s)) k =
    if k =? cfgParamAddress q + 1 then cfgSecondByte v
    else if k =? cfgParamAddress q then cfgFirstByte v
    else eeprom s k.
Proof.
  unfold hostStoreCfgParam. rewrite zunoSaveCFGParam_eeprom.
  destruct (configParameterChanged_frame q v s) as (-> & _). reflexivity.
Qed.

Lemma hostStore_after_change_verifies (q v : Z) (s : State) :
  64 <= q <= 66 -> verifyChecksum s = true ->
  (verifyChecksum (hostStoreCfgParam q v (configParameterChanged q v s)) = true <->
   (highByte v + lowByte v) mod 256 =
   (EEPROM_read (cfgParamAddress q) s + EEPROM_read (cfgParamAddress q + 1) s) mod 256).
Proof.
  intros Hq Hv. apply verifyChecksum_true in Hv.
  rewrite verifyChecksum_true. unfold EEPROM_read in *.
  rewrite storedBlockSum_flat in *.
  rewrite !hostStore_after_change_eeprom, <- Hv, <- cfg_bytes_add.
  unfold CHECKSUM_ADDRESS, EEPROM_ADDRESS. change (0 + 1) with 1.
  assert (q = 64 \/ q = 65 \/ q = 66) as [->|[->| ->]] by lia.
  - change (cfgParamAddress 64 + 1) with 8193. change (cfgParamAddress 64) with 8192.
    cbn [Z.eqb Pos.eqb].
    rewrite <- (mod256_add_cancel_iff
                  (eeprom s 8194 + eeprom s 8195 + eeprom s 8196 + eeprom s 8197)
                  (cfgFirstByte v + cfgSecondByte v) (eeprom s 8192 + eeprom s 8193)).
    split; intros E; (etransitivity; [|etransitivity; [exact E|]]); f_equal; lia.
  - change (cfgParamAddress 65 + 1) with 8195. change (cfgParamAddress 65) with 8194.
    cbn [Z.eqb Pos.eqb].
    rewrite <- (mod256_add_cancel_iff
                  (eeprom s 8192 + eeprom s 8193 + eeprom s 8196 + eeprom s 8197)
                  (cfgFirstByte v + cfgSecondByte v) (eeprom s 8194 + eeprom s 8195)).
    split; intros E; (etransitivity; [|etransitivity; [exact E|]]); f_equal; lia.
  - change (cfgParamAddress 66 + 1) with 8197. change (cfgParamAddress 66) with 8196.
    cbn [Z.eqb Pos.eqb].
    rewrite <- (mod256_add_cancel_iff
                  (eeprom s 8192 + eeprom s 8193 + eeprom s 8194 + eeprom s 8195)
                  (cfgFirstByte v + cfgSecondByte v) (eeprom s 8196 + eeprom s 8197)).
    split; intros E; (etransitivity; [|etransitivity; [exact E|]]); f_equal; lia.
Qed.

(** X24: a power loss between a parameter change and the next [loop].
    Starting from a block that verifies, let the handler run for parameter
    number 64, 65 or 66 and the host store the value, and let the power fail
    before [loop] has saved.  If the byte sum of the new value differs
    (modulo 256) from the byte sum of the two cells it replaced, the next
    boot finds the checksum wrong and resets all three parameters to the
    defaults.  If the sums agree, the next boot accepts the block and loads
    the value exactly as the host stored it (for the read interval, without
    the floor of 30). *)
Theorem power_loss_before_save (q v : Z) (s : State) :
  64 <= q <= 66 -> is_u16 v -> verifyChecksum s = true ->
  ((highByte v + lowByte v) mod 256 <>
   (EEPROM_read (cfgParamAddress q) s + EEPROM_read (cfgParamAddress q + 1) s) mod 256 ->
   verifyChecksum (hostStoreCfgParam q v (configParameterChanged q v s)) = false /\
   parameters (reboot (hostStoreCfgParam q v (configParameterChanged q v s)))
     = parametersDefault) /\
  ((highByte v + lowByte v) mod 256 =
   (EEPROM_read (cfgParamAddress q) s + EEPROM_read (cfgParamAddress q + 1) s) mod 256 ->
   verifyChecksum (hostStoreCfgParam q v (configParameterChanged q v s)) = true /\
   parameters (reboot (hostStoreCfgParam q v (configParameterChanged q v s)))
     !!! Z.to_nat (q - PARAMETER_FIRST_NUMBER) = v).
Proof.
  intros Hq Hv Hc.
  pose proof (hostStore_after_change_verifies q v s Hq Hc) as Hiff.
  set (s1 := hostStoreCfgParam q v (configParameterChanged q v s)) in *.
  split.
  - intros Hne.
    assert (verifyChecksum s1 = false) as Hf.
    { destruct (verifyChecksum s1); [|reflexivity].
      exfalso. apply Hne, Hiff. reflexivity. }
    split; [exact Hf|]. unfold reboot.
    apply (boot_corrupt_resets_core (eeprom s1)).
    rewrite <- Hf. apply verifyChecksum_ext. intros k. apply power_on_eeprom.
  - intros He.
    assert (verifyChecksum s1 = true) as Ht by (apply Hiff; exact He).
    split; [exact Ht|].
    rewrite (reboot_parameters s1 Ht).
    assert (zunoLoadCFGParam q s1 = v) as El.
    { apply zunoLoadCFGParam_word; [exact Hv| |];
        unfold EEPROM_read; subst s1; rewrite hostStore_after_change_eeprom.
      - destruct (Z.eqb_spec (cfgParamAddress q) (cfgParamAddress q + 1)); [lia|].
        rewrite Z.eqb_refl. reflexivity.
      - rewrite Z.eqb_refl. reflexivity. }
    assert (q = 64 \/ q = 65 \/ q = 66) as [->|[->| ->]] by lia; exact El.
Qed.

End Firmware.

(** * The theorems at concrete inputs *)

(** The states below start from an erased EEPROM, in which every cell reads
    255: the stored checksum (255) is not the byte sum of the block (250),
    so boot takes the defaults. *)

Lemma convertSpeed_table_witness :
  0 <= 20 <= 99 /\ convertSpeed 20 = 1.
Proof.
  split; [lia|].
  apply (convertSpeed_table 20); lia.
Defined.

Lemma setterFan_survives_reboot_witness :
  is_u8 55 /\
  getterFan (reboot true (setterFan 55 (power_on (fun _ => 255)))) = 55.
Proof.
  assert (is_u8 55) as H by (unfold is_u8; lia).
  split; [exact H|].
  apply (setterFan_survives_reboot true 55 (power_on (fun _ => 255))
           (power_on (fun _ => 255)) H).
Defined.

Lemma boot_corrupt_resets_defaults_witness :
  storedBlockSum (power_on (fun _ => 255))
    <> EEPROM_read CHECKSUM_ADDRESS (power_on (fun _ => 255)) /\
  parameters (boot true (fun _ => 255)) = [10; 10; 30] /\
  verifyChecksum (boot true (fun _ => 255)) = true.
Proof.
  assert (storedBlockSum (power_on (fun _ => 255))
            <> EEPROM_read CHECKSUM_ADDRESS (power_on (fun _ => 255))) as H
    by (vm_compute; lia).
  split; [exact H|].
  destruct (boot_corrupt_resets_defaults true (fun _ => 255) H) as (H1 & _ & _ & _ & H5).
  split; [exact H1 | exact H5].
Defined.

Lemma configParameterChanged_deferred_save_witness :
  64 <= 66 <= 66 /\ is_u16 5 /\
  wf_params (parameters (boot true (fun _ => 255))) /\
  parameters (configParameterChanged 66 5 (boot true (fun _ => 255))) !!! 2%nat = 30 /\
  verifyChecksum
    (loop true 30000 215 480
       (configParameterChanged 66 5 (boot true (fun _ => 255)))) = true.
Proof.
  assert (64 <= 66 <= 66) as Hq by lia.
  assert (is_u16 5) as Hv by (unfold is_u16; lia).
  assert (wf_params (parameters (boot true (fun _ => 255)))) as Hwf.
  { assert (parameters (boot true (fun _ => 255)) = [10; 10; 30]) as ->
      by (vm_compute; reflexivity).
    split; [reflexivity|]. repeat constructor; unfold is_u16; lia. }
  split; [exact Hq|]. split; [exact Hv|]. split; [exact Hwf|].
  destruct (configParameterChanged_deferred_save true 66 5 30000 215 480
              (boot true (fun _ => 255)) Hq Hv Hwf) as ((_ & H2 & _) & H').
  split; [exact H2|].
  apply (H' (configParameterChanged 66 5 (boot true (fun _ => 255)))).
  left. reflexivity.
Defined.

Lemma configParameterChanged_out_of_range_witness :
  is_u8 10 /\ ~ (64 <= 10 <= 66) /\
  configParameterChanged 10 7 (power_on (fun _ => 255)) = power_on (fun _ => 255).
Proof.
  assert (is_u8 10) as Hq by (unfold is_u8; lia).
  assert (~ (64 <= 10 <= 66)) as Hn by lia.
  split; [exact Hq|]. split; [exact Hn|].
  apply (configParameterChanged_out_of_range 10 7 (power_on (fun _ => 255)) Hq Hn).
Defined.



Lemma setSpeedRelays_footprint_witness :
  0 <= 200 < 256 /\
  setSpeedRelays 200 (power_on (fun _ => 255)) = power_on (fun _ => 255).
Proof.
  assert (0 <= 200 < 256) as H by lia.
  split; [exact H|].
  destruct (setSpeedRelays_footprint 200 (power_on (fun _ => 255)) H) as (_ & H2 & _).
  apply H2. lia.
Defined.

Lemma convertSpeed_total_witness :
  is_u8 200 /\ convertSpeed 200 = 5.
Proof.
  assert (is_u8 200) as H by (unfold is_u8; lia).
  split; [exact H|].
  destruct (convertSpeed_total true 200 H) as (_ & H2 & _).
  apply H2. lia.
Defined.

Lemma checksum_invariant_witness :
  Reachable true
    (loop true 30000 215 480
       (configParameterChanged 64 300 (boot true (fun _ => 255)))) /\
  EEPROM_read CHECKSUM_ADDRESS
    (loop true 30000 215 480
       (configParameterChanged 64 300 (boot true (fun _ => 255)))) = 85.
Proof.
  assert (Reachable true
            (loop true 30000 215 480
               (configParameterChanged 64 300 (boot true (fun _ => 255))))) as Hr.
  { apply (reach_step true (configParameterChanged 64 300 (boot true (fun _ => 255))));
      [apply (reach_step true (boot true (fun _ => 255)))|].
    - apply reach_boot. intros a. unfold is_u8. lia.
    - apply step_configParameterChanged; [unfold is_u8 | unfold is_u16]; lia.
    - apply step_loop. }
  split; [exact Hr|].
  destruct (checksum_invariant true _ Hr) as (H & _).
  rewrite H; reflexivity.
Defined.

Lemma convertSpeed_monotone_witness :
  40 <= 41 /\ convertSpeed 40 <= convertSpeed 41.
Proof.
  split; [lia|]. apply (convertSpeed_monotone 40 41). lia.
Defined.

Lemma convertSpeed_ceiling_witness :
  0 <= 61 /\ convertSpeed 61 = Z.min 5 ((61 + 19) / 20).
Proof.
  split; [lia|]. apply (convertSpeed_ceiling 61). lia.
Defined.

Lemma fan_off_iff_zero_witness :
  is_u8 0 /\
  relayOutputs (setterFan 0 (power_on (fun _ => 255))) =
    [Some HIGH; Some HIGH; Some HIGH; Some HIGH; Some HIGH].
Proof.
  assert (is_u8 0) as H by (unfold is_u8; lia).
  split; [exact H|].
  apply (fan_off_iff_zero 0 (power_on (fun _ => 255)) H). reflexivity.
Defined.

Lemma relay_outputs_identify_speed_witness :
  0 <= 2 <= 5 /\
  relayOutputs (setSpeedRelays 2 (power_on (fun _ => 255))) =
    relayOutputs (setSpeedRelays 2 (setSpeedRelays 4 (power_on (fun _ => 255)))) /\
  2 = 2.
Proof.
  assert (0 <= 2 <= 5) as H by lia.
  assert (relayOutputs (setSpeedRelays 2 (power_on (fun _ => 255))) =
          relayOutputs (setSpeedRelays 2 (setSpeedRelays 4 (power_on (fun _ => 255)))))
    as E by reflexivity.
  split; [exact H|]. split; [exact E|].
  exact (relay_outputs_identify_speed 2 2 _ _ H H E).
Defined.

Lemma setSpeedRelays_overrides_witness :
  0 <= 1 <= 5 /\
  pinLevel (setSpeedRelays 1 (setSpeedRelays 5 (power_on (fun _ => 255)))) 14 =
    pinLevel (setSpeedRelays 1 (power_on (fun _ => 255))) 14.
Proof.
  assert (0 <= 1 <= 5) as H by lia.
  split; [exact H|].
  apply (setSpeedRelays_overrides 1 5 (power_on (fun _ => 255)) 14 H).
Defined.

Lemma save_load_round_trip_witness :
  wf_state (boot true (fun _ => 255)) /\
  parameters (loadParameters true (saveParameters true (boot true (fun _ => 255))))
  = [10; 10; 30].
Proof.
  assert (wf_state (boot true (fun _ => 255))) as H.
  { split.
    - intros a. unfold is_u8.
      assert (eeprom (boot true (fun _ => 255)) a =
              if a =? 1 then 50 else if a =? 8197 then 30 else if a =? 8196 then 0
              else if a =? 8195 then 10 else if a =? 8194 then 0
              else if a =? 8193 then 10 else if a =? 8192 then 0 else 255) as ->
        by reflexivity.
      repeat match goal with |- context [if ?c then _ else _] => destruct c end; lia.
    - assert (parameters (boot true (fun _ => 255)) = [10; 10; 30]) as ->
        by (vm_compute; reflexivity).
      split; [reflexivity|]. repeat constructor; unfold is_u16; lia. }
  split; [exact H|].
  destruct (save_load_round_trip true (boot true (fun _ => 255)) H) as (-> & _).
  vm_compute. reflexivity.
Defined.

Lemma verifyChecksum_detects_byte_change_witness :
  verifyChecksum (boot true (fun _ => 255)) = true /\
  verifyChecksum
    (set_eeprom (upd (eeprom (boot true (fun _ => 255))) 8193 11)
       (boot true (fun _ => 255))) = false.
Proof.
  assert (verifyChecksum (boot true (fun _ => 255)) = true) as Hv
    by (vm_compute; reflexivity).
  split; [exact Hv|].
  apply (verifyChecksum_detects_byte_change (boot true (fun _ => 255)) 8193 11).
  - intros a. unfold is_u8.
    assert (eeprom (boot true (fun _ => 255)) a =
            if a =? 1 then 50 else if a =? 8197 then 30 else if a =? 8196 then 0
            else if a =? 8195 then 10 else if a =? 8194 then 0
            else if a =? 8193 then 10 else if a =? 8192 then 0 else 255) as ->
      by reflexivity.
    repeat match goal with |- context [if ?c then _ else _] => destruct c end; lia.
  - exact Hv.
  - right. unfold PARAMETER_START_EEPROM_ADDRESS. lia.
  - unfold is_u8. lia.
  - vm_compute. discriminate.
Defined.

Lemma verifyChecksum_blind_to_swaps_witness :
  PARAMETER_START_EEPROM_ADDRESS <= 8193 < PARAMETER_START_EEPROM_ADDRESS + 6 /\
  PARAMETER_START_EEPROM_ADDRESS <= 8197 < PARAMETER_START_EEPROM_ADDRESS + 6 /\
  verifyChecksum
    (set_eeprom (swap_cells (eeprom (boot true (fun _ => 255))) 8193 8197)
       (boot true (fun _ => 255))) = true.
Proof.
  assert (PARAMETER_START_EEPROM_ADDRESS <= 8193 < PARAMETER_START_EEPROM_ADDRESS + 6)
    as Ha by (unfold PARAMETER_START_EEPROM_ADDRESS; lia).
  assert (PARAMETER_START_EEPROM_ADDRESS <= 8197 < PARAMETER_START_EEPROM_ADDRESS + 6)
    as Hb by (unfold PARAMETER_START_EEPROM_ADDRESS; lia).
  split; [exact Ha|]. split; [exact Hb|].
  rewrite (verifyChecksum_blind_to_swaps (boot true (fun _ => 255)) 8193 8197 Ha Hb).
  vm_compute. reflexivity.
Defined.

Lemma boot_valid_is_read_only_witness :
  verifyChecksum (power_on (fun a => if a =? 8193 then 7 else if a =? 1 then 7 else 0))
    = true /\
  parameters (boot true (fun a => if a =? 8193 then 7 else if a =? 1 then 7 else 0))
    = [7; 0; 0].
Proof.
  assert (verifyChecksum
            (power_on (fun a => if a =? 8193 then 7 else if a =? 1 then 7 else 0))
          = true) as Hv by (vm_compute; reflexivity).
  split; [exact Hv|].
  destruct (boot_valid_is_read_only true _ Hv) as (_ & _ & -> & _).
  vm_compute. reflexivity.
Defined.

Lemma parameter_change_survives_reboot_witness :
  64 <= 64 <= 66 /\ is_u16 300 /\
  wf_params (parameters (boot true (fun _ => 255))) /\
  parameters
    (reboot true (loop true 30000 215 480
                    (configParameterChanged 64 300 (boot true (fun _ => 255)))))
  = [300; 10; 30].
Proof.
  assert (64 <= 64 <= 66) as Hq by lia.
  assert (is_u16 300) as Hv by (unfold is_u16; lia).
  assert (wf_params (parameters (boot true (fun _ => 255)))) as Hwf.
  { assert (parameters (boot true (fun _ => 255)) = [10; 10; 30]) as ->
      by (vm_compute; reflexivity).
    split; [reflexivity|]. repeat constructor; unfold is_u16; lia. }
  split; [exact Hq|]. split; [exact Hv|]. split; [exact Hwf|].
  destruct (parameter_change_survives_reboot true 64 300 30000 215 480
              (boot true (fun _ => 255)) Hq Hv Hwf) as (-> & _).
  vm_compute. reflexivity.
Defined.

Lemma fan_state_consistent_witness :
  Reachable true
    (loop true 30000 215 480 (setterFan 70 (boot true (fun _ => 255)))) /\
  relayOutputs (loop true 30000 215 480 (setterFan 70 (boot true (fun _ => 255))))
  = [Some HIGH; Some HIGH; Some HIGH; Some LOW; Some LOW].
Proof.
  assert (Reachable true
            (loop true 30000 215 480 (setterFan 70 (boot true (fun _ => 255))))) as Hr.
  { apply (reach_step true (setterFan 70 (boot true (fun _ => 255))));
      [apply (reach_step true (boot true (fun _ => 255)))|].
    - apply reach_boot. intros a. unfold is_u8. lia.
    - apply step_setterFan. unfold is_u8. lia.
    - apply step_loop. }
  split; [exact Hr|].
  destruct (fan_state_consistent true _ Hr) as (_ & _ & ->).
  vm_compute. reflexivity.
Defined.

Lemma spare_relay_never_energised_witness :
  Reachable true
    (setterFan 99 (loop true 30000 215 480 (boot true (fun _ => 255)))) /\
  pinLevel (setterFan 99 (loop true 30000 215 480 (boot true (fun _ => 255)))) 15
  = Some HIGH.
Proof.
  assert (Reachable true
            (setterFan 99 (loop true 30000 215 480 (boot true (fun _ => 255))))) as Hr.
  { apply (reach_step true (loop true 30000 215 480 (boot true (fun _ => 255))));
      [apply (reach_step true (boot true (fun _ => 255)))|].
    - apply reach_boot. intros a. unfold is_u8. lia.
    - apply step_loop.
    - apply step_setterFan. unfold is_u8. lia. }
  split; [exact Hr|].
  apply (spare_relay_never_energised true _ Hr).
Defined.

Lemma last_report_tracks_reading_witness :
  poll_due 30000 (boot true (fun _ => 255)) = true /\
  -32768 <= 215 - sentTemperature (boot true (fun _ => 255)) < 32768 /\
  Z.abs (temperature (loop true 30000 215 5 (boot true (fun _ => 255)))
         - sentTemperature (loop true 30000 215 5 (boot true (fun _ => 255)))) < 10.
Proof.
  assert (poll_due 30000 (boot true (fun _ => 255)) = true) as Hd by (vm_compute; reflexivity).
  assert (sentTemperature (boot true (fun _ => 255)) = 0) as Est by (vm_compute; reflexivity).
  assert (-32768 <= 215 - sentTemperature (boot true (fun _ => 255)) < 32768) as Hf
    by (rewrite Est; lia).
  split; [exact Hd|]. split; [exact Hf|].
  destruct (last_report_tracks_reading true 30000 215 5 (boot true (fun _ => 255)) Hd)
    as (H & _).
  assert (parameters (boot true (fun _ => 255)) !!! PARAM_TEMP_HYSTERESIS = 10) as E
    by (vm_compute; reflexivity).
  rewrite E in H. apply H; [lia | exact Hf].
Defined.

Lemma no_repeated_report_witness :
  poll_due 30000 (boot true (fun _ => 255)) = true /\
  poll_due 60000 (loop true 30000 215 480 (boot true (fun _ => 255))) = true /\
  CH_TEMP ∉ reported_channels
    (emitted (loop true 30000 215 480 (boot true (fun _ => 255)))
       (loop true 60000 215 490 (loop true 30000 215 480 (boot true (fun _ => 255))))).
Proof.
  assert (poll_due 30000 (boot true (fun _ => 255)) = true) as Hd by (vm_compute; reflexivity).
  assert (poll_due 60000 (loop true 30000 215 480 (boot true (fun _ => 255))) = true)
    as Hd' by (vm_compute; reflexivity).
  split; [exact Hd|]. split; [exact Hd'|].
  destruct (no_repeated_report true 30000 60000 215 480 215 490
              (boot true (fun _ => 255)) Hd Hd') as (H & _).
  apply H. vm_compute. reflexivity.
Defined.

Lemma poll_timer_wraps_witness :
  is_u32 (lastMillis (set_lastMillis 4294960000 (boot true (fun _ => 255)))) /\
  0 <= 30000 < 4294967296 /\
  poll_due 22704 (set_lastMillis 4294960000 (boot true (fun _ => 255))) = true.
Proof.
  assert (is_u32 (lastMillis (set_lastMillis 4294960000 (boot true (fun _ => 255)))))
    as Hl by (unfold is_u32; cbn; lia).
  assert (0 <= 30000 < 4294967296) as Hd by lia.
  split; [exact Hl|]. split; [exact Hd|].
  destruct (poll_timer_wraps true 30000 0 0 0
              (set_lastMillis 4294960000 (boot true (fun _ => 255))) Hl Hd) as (E & _).
  assert (u32 (lastMillis (set_lastMillis 4294960000 (boot true (fun _ => 255))) + 30000)
          = 22704) as E' by (vm_compute; reflexivity).
  rewrite E' in E. rewrite E. vm_compute. reflexivity.
Defined.

Lemma sensor_getters_encode_witness :
  -32768 <= temperature (loop true 30000 (-53) 480 (boot true (fun _ => 255))) < 32768 /\
  -32768 <= humidity (loop true 30000 (-53) 480 (boot true (fun _ => 255))) < 32768 /\
  getterTemperature (loop true 30000 (-53) 480 (boot true (fun _ => 255))) = 65483.
Proof.
  assert (temperature (loop true 30000 (-53) 480 (boot true (fun _ => 255))) = -53) as Et
    by (vm_compute; reflexivity).
  assert (humidity (loop true 30000 (-53) 480 (boot true (fun _ => 255))) = 480) as Eh
    by (vm_compute; reflexivity).
  assert (-32768 <= temperature (loop true 30000 (-53) 480 (boot true (fun _ => 255)))
          < 32768) as Ht by (rewrite Et; lia).
  assert (-32768 <= humidity (loop true 30000 (-53) 480 (boot true (fun _ => 255)))
          < 32768) as Hh by (rewrite Eh; lia).
  split; [exact Ht|]. split; [exact Hh|].
  destruct (sensor_getters_encode true 0 0 0 _ Ht Hh) as ((_ & _ & ->) & _).
  rewrite Et. reflexivity.
Defined.

Lemma read_interval_floor_kept_witness :
  is_u8 66 /\ wf_params (parameters (boot true (fun _ => 255))) /\
  READ_INTERVAL_MIN <= parameters (boot true (fun _ => 255)) !!! PARAM_READ_INTERVAL /\
  READ_INTERVAL_MIN <=
    parameters (configParameterChanged 66 3 (boot true (fun _ => 255)))
      !!! PARAM_READ_INTERVAL.
Proof.
  assert (is_u8 66) as Hq by (unfold is_u8; lia).
  assert (parameters (boot true (fun _ => 255)) = [10; 10; 30]) as E
    by (vm_compute; reflexivity).
  assert (wf_params (parameters (boot true (fun _ => 255)))) as Hwf.
  { rewrite E. split; [reflexivity|]. repeat constructor; unfold is_u16; lia. }
  assert (READ_INTERVAL_MIN <=
          parameters (boot true (fun _ => 255)) !!! PARAM_READ_INTERVAL) as Hf.
  { rewrite E. vm_compute. discriminate. }
  split; [exact Hq|]. split; [exact Hwf|]. split; [exact Hf|].
  apply (read_interval_floor_kept 66 3 (boot true (fun _ => 255)) Hq Hwf Hf).
Defined.

Lemma power_loss_before_save_witness :
  64 <= 66 <= 66 /\ is_u16 5 /\
  verifyChecksum (boot true (fun _ => 255)) = true /\
  parameters
    (reboot true (hostStoreCfgParam true 66 5
                    (configParameterChanged 66 5 (boot true (fun _ => 255)))))
  = [10; 10; 30].
Proof.
  assert (64 <= 66 <= 66) as Hq by lia.
  assert (is_u16 5) as Hv by (unfold is_u16; lia).
  assert (verifyChecksum (boot true (fun _ => 255)) = true) as Hc
    by (vm_compute; reflexivity).
  split; [exact Hq|]. split; [exact Hv|]. split; [exact Hc|].
  destruct (power_loss_before_save true 66 5 (boot true (fun _ => 255)) Hq Hv Hc)
    as (H & _).
  apply H. vm_compute. discriminate.
Defined.
